(** * skelly_tracker: trajectory arrays, recorders and the batch orchestrator

    A shallow embedding of the parts of the repository that turn per-frame
    detection results into dense trajectory arrays:

    - [MediapipeObservation] (mediapipe_observation.py),
    - [OpenPoseRecorder] (openpose_recorder.py),
    - [BrightestPointRecorder] (brightest_point_recorder.py),
    - [process_folder_of_videos] (process_folder_of_videos.py).

    Python floats are IEEE-754 binary64 numbers and are modelled by Rocq's
    primitive floats; Python exceptions by the [result] type; numpy arrays by
    a shape together with the row-major list of their elements. *)

From Stdlib Require Import ZArith String Ascii Floats Lia.
From stdpp Require Import gmap strings list sorting.

Open Scope Z_scope.
Open Scope nat_scope.
Open Scope string_scope.

(** ** Python exceptions *)

Inductive exn :=
| ValueError (msg : string)
| KeyError (key : string)
| TypeError (msg : string)
| IndexError (msg : string).

Inductive result (A : Type) :=
| Ok (a : A)
| Raise (e : exn).

Arguments Ok {A} a.
Arguments Raise {A} e.

#[global] Instance result_ret : MRet result := fun A a => Ok a.

#[global] Instance result_bind : MBind result := fun A B f m =>
  match m with
  | Ok a => f a
  | Raise e => Raise e
  end.

#[global] Instance Ok_inj {A} : Inj eq eq (@Ok A).
Proof. by intros a b [= ->]. Qed.

Definition raises {A} (m : result A) : Prop :=
  match m with
  | Ok _ => False
  | Raise _ => True
  end.

(** ** numpy arrays *)

Module Np.

(** An [ndarray] of dtype float64: its shape and its elements in row-major
    (C) order. *)
Record ndarray := mk_ndarray { shape : list nat; data : list float }.

(** Number of elements of an array of the given shape. *)
Definition size_of (sh : list nat) : nat := foldr Nat.mul 1 sh.

Definition wf (a : ndarray) : Prop := length (data a) = size_of (shape a).

(** [np.full(shape, v)] and [np.zeros(shape)]. *)
Definition full (sh : list nat) (v : float) : ndarray :=
  mk_ndarray sh (replicate (size_of sh) v).

Definition zeros (sh : list nat) : ndarray := full sh 0%float.

(** [np.array([(x, y, z), ...])]: a list of n >= 1 triples gives shape
    (n, 3); the empty list gives the one-dimensional empty array of
    shape (0,). *)
Definition array_of_triples (l : list (float * float * float)) : ndarray :=
  match l with
  | [] => mk_ndarray [0] []
  | _ => mk_ndarray [length l; 3] (l ≫= (fun t => [t.1.1; t.1.2; t.2]))
  end.

(** Component of a three-element vector. *)
Definition pick3 (v : float * float * float) (j : nat) : float :=
  match j with
  | 0 => v.1.1
  | 1 => v.1.2
  | _ => v.2
  end.

(** [a *= np.array([v0, v1, v2])]: the in-place product with a vector of
    shape (3,).  The result must have the shape of [a], so broadcasting
    succeeds exactly when the last axis of [a] has length 3; the element at
    flat position i is then multiplied by component [i mod 3]. *)
Definition imul_vec3 (a : ndarray) (v : float * float * float) : result ndarray :=
  match last (shape a) with
  | Some 3 =>
      Ok (mk_ndarray (shape a)
            (imap (fun i x => (x * pick3 v (i mod 3))%float) (data a)))
  | _ => Raise (ValueError "operands could not be broadcast together")
  end.

(** The shape of an array without its first axis, [None] for a
    zero-dimensional array. *)
Definition tail_shape (a : ndarray) : option (list nat) :=
  match shape a with
  | [] => None
  | _ :: tl => Some tl
  end.

Definition dim0 (a : ndarray) : nat := hd 0 (shape a).

(** [np.concatenate(arrays, axis=0)]. *)
Definition concatenate (l : list ndarray) : result ndarray :=
  match l with
  | [] => Raise (ValueError "need at least one array to concatenate")
  | a :: rest =>
      match tail_shape a with
      | None => Raise (ValueError "zero-dimensional arrays cannot be concatenated")
      | Some tl =>
          if forallb (fun b => bool_decide (tail_shape b = Some tl)) rest
          then Ok (mk_ndarray (sum_list (dim0 <$> l) :: tl) (concat (data <$> l)))
          else Raise (ValueError "all the input array dimensions except for the concatenation axis must match exactly")
      end
  end.

(** [np.stack(arrays)] (axis 0). *)
Definition stack (l : list ndarray) : result ndarray :=
  match l with
  | [] => Raise (ValueError "need at least one array to stack")
  | a :: rest =>
      if forallb (fun b => bool_decide (shape b = shape a)) rest
      then Ok (mk_ndarray (length l :: shape a) (concat (data <$> l)))
      else Raise (ValueError "all input arrays must have the same shape")
  end.

(** [np.reshape(values, (-1, 3))] of a flat list of numbers. *)
Definition reshape_m1_3 (l : list float) : result ndarray :=
  if bool_decide (length l mod 3 = 0)
  then Ok (mk_ndarray [length l / 3; 3] l)
  else Raise (ValueError "cannot reshape array into shape (-1, 3)").

(** Rows and columns of a two-dimensional array. *)
Definition nrows (a : ndarray) : nat := dim0 a.
Definition ncols (a : ndarray) : nat := hd 0 (tl (shape a)).

(** [a[:n, :]] for a two-dimensional [a]. *)
Definition take_rows (n : nat) (a : ndarray) : ndarray :=
  mk_ndarray [n `min` nrows a; ncols a] (take ((n `min` nrows a) * ncols a) (data a)).

(** The elements of the two-dimensional [src] broadcast to [rows] x [cols]:
    an axis of [src] must have the target length or length 1. *)
Definition broadcast2 (src : ndarray) (rows cols : nat) : result (list float) :=
  match shape src with
  | [r; c] =>
      d1 ← (if bool_decide (c = cols) then Ok (data src)
            else if bool_decide (c = 1) then Ok (data src ≫= replicate cols)
            else Raise (ValueError "could not broadcast input array"));
      if bool_decide (r = rows) then Ok d1
      else if bool_decide (r = 1) then Ok (concat (replicate rows d1))
      else Raise (ValueError "could not broadcast input array")
  | _ => Raise (ValueError "could not broadcast input array")
  end.

(** Replace [len] elements of [l] from position [lo] by [new]. *)
Definition splice (lo len : nat) (new l : list float) : list float :=
  take lo l ++ new ++ drop (lo + len) l.

(** [a[lo:hi, :] = src] for a two-dimensional [a]; slice bounds are clipped
    to the number of rows as Python does. *)
Definition set_rows (lo hi : nat) (a src : ndarray) : result ndarray :=
  let lo' := lo `min` nrows a in
  let hi' := (hi `min` nrows a) `max` lo' in
  new ← broadcast2 src (hi' - lo') (ncols a);
  Ok (mk_ndarray (shape a) (splice (lo' * ncols a) ((hi' - lo') * ncols a) new (data a))).

(** [a[lo:lo+n, :]] of a two-dimensional [a], as the list of its elements,
    and the row [a[i, :]]. *)
Definition rows (a : ndarray) (lo n : nat) : list float :=
  take (n * ncols a) (drop (lo * ncols a) (data a)).

Definition row (a : ndarray) (i : nat) : list float := rows a i 1.

(** Whether some element is NaN or infinite. *)
Definition has_non_finite (a : ndarray) : bool :=
  existsb (fun v => PrimFloat.is_nan v || PrimFloat.is_infinity v) (data a).

(** Frame size (elements per entry of the first axis) of a
    three-dimensional array, and its i-th frame. *)
Definition frame_size (a : ndarray) : nat := size_of (tl (shape a)).

Definition frame (a : ndarray) (i : nat) : list float :=
  take (frame_size a) (drop (i * frame_size a) (data a)).

(** A Python integer index on an axis of length [n]: negative indices count
    from the end. *)
Definition norm_index (n : nat) (i : Z) : option nat :=
  if bool_decide (0 <= i < Z.of_nat n)%Z then Some (Z.to_nat i)
  else if bool_decide (- Z.of_nat n <= i < 0)%Z then Some (Z.to_nat (i + Z.of_nat n))
  else None.

(** [a[i, :, :] = src] for a three-dimensional [a] and an integer [i]. *)
Definition set_frame (a : ndarray) (i : Z) (src : ndarray) : result ndarray :=
  match shape a with
  | [n; m; c] =>
      match norm_index n i with
      | Some k =>
          new ← broadcast2 src m c;
          Ok (mk_ndarray (shape a) (splice (k * (m * c)) (m * c) new (data a)))
      | None => Raise (IndexError "index is out of bounds for axis 0")
      end
  | _ => Raise (IndexError "too many indices for array")
  end.

(** [a[None, :, :] = src] for a three-dimensional [a] of shape (n, m, c):
    the target is the whole array seen with shape (1, n, m, c), and a
    two-dimensional [src] is broadcast over every entry of the first two
    axes. *)
Definition set_newaxis (a : ndarray) (src : ndarray) : result ndarray :=
  match shape a with
  | [n; m; c] =>
      new ← broadcast2 src m c;
      Ok (mk_ndarray (shape a) (concat (replicate n new)))
  | _ => Raise (IndexError "too many indices for array")
  end.

(** [a[i, j, k] = v] for a three-dimensional [a] and non-negative
    indices. *)
Definition set_item3 (a : ndarray) (i j k : nat) (v : float) : result ndarray :=
  match shape a with
  | [n; m; c] =>
      if bool_decide (i < n ∧ j < m ∧ k < c)
      then Ok (mk_ndarray (shape a) (<[(i * m + j) * c + k := v]> (data a)))
      else Raise (IndexError "index is out of bounds")
  | _ => Raise (IndexError "too many indices for array")
  end.

(** Split [l] into [n] consecutive pieces of [k] elements. *)
Fixpoint chunks (n k : nat) (l : list float) : list (list float) :=
  match n with
  | 0 => []
  | S n' => take k l :: chunks n' k (drop k l)
  end.

End Np.

(** ** mediapipe_observation.py *)

(** A [NormalizedLandmark] of mediapipe: coordinates normalised to the
    image. *)
Module Landmark.
Record t := mk { x : float; y : float; z : float }.
End Landmark.

(** Values of the dictionaries handed to [json.dumps]. *)
#[warnings="-register-all"]
Inductive pyval :=
| PFloat (f : float)
| PInt (n : Z)
| PList (l : list pyval)
| PTuple (l : list pyval).

(** A float is finite when it is neither NaN nor an infinity. *)
Definition is_finite (f : float) : bool :=
  negb (PrimFloat.is_nan f) && negb (PrimFloat.is_infinity f).

(** Whether [json.dumps(v, allow_nan=...)] accepts [v]: the encoder writes
    NaN, Infinity and -Infinity for non-finite floats unless [allow_nan] is
    false, in which case it raises ValueError. *)
Fixpoint json_encodable (allow_nan : bool) (v : pyval) : bool :=
  match v with
  | PFloat f => allow_nan || is_finite f
  | PInt _ => true
  | PList l => forallb (json_encodable allow_nan) l
  | PTuple l => forallb (json_encodable allow_nan) l
  end.

(** [json.dumps(d, allow_nan=...)] of a dictionary with string keys; the
    callers below discard the text, so only success or failure is kept. *)
Definition json_dumps (allow_nan : bool) (d : gmap string pyval) : result unit :=
  if forallb (fun kv => json_encodable allow_nan kv.2) (map_to_list d)
  then Ok ()
  else Raise (ValueError "Out of range float values are not JSON compliant").

(** [ndarray.tolist()]: nested lists following the shape. *)
Fixpoint tolist_data (sh : list nat) (d : list float) : pyval :=
  match sh with
  | [] => PFloat (hd nan d)
  | n :: tl => PList (tolist_data tl <$> Np.chunks n (Np.size_of tl) d)
  end.

Definition tolist (a : Np.ndarray) : pyval := tolist_data (Np.shape a) (Np.data a).

(** The integers numpy holds in an int64 array: [np.array] of a list of
    Python integers has dtype int64 when each of them is in this range.
    Other integers get another dtype (uint64 or object) and are outside
    the model. *)
Definition int64 (n : Z) : Prop := (- 2 ^ 63 <= n < 2 ^ 63)%Z.

#[global] Instance int64_dec n : Decision (int64 n).
Proof. unfold int64. apply _. Defined.

(** The conversion numpy applies to an integer of an int64 array that meets
    a float64 operand: the binary64 number nearest to the integer (ties to
    even), for every integer of the int64 range, its ends included. *)
Definition float_of_int (n : Z) : float :=
  SF2Prim (binary_normalize prec emax n 0 false).

Module MediapipeObservation.

(** The dataclass: each region is [None] or a landmark list (the
    [landmark] field of a NormalizedLandmarkList). *)
Record t := mk {
  pose_landmarks : option (list Landmark.t);
  right_hand_landmarks : option (list Landmark.t);
  left_hand_landmarks : option (list Landmark.t);
  face_landmarks : option (list Landmark.t);
  image_size : Z * Z
}.

Definition pose_landmarks_empty (o : t) : bool := bool_decide (pose_landmarks o = None).
Definition right_hand_landmarks_empty (o : t) : bool := bool_decide (right_hand_landmarks o = None).
Definition left_hand_landmarks_empty (o : t) : bool := bool_decide (left_hand_landmarks o = None).
Definition face_landmarks_empty (o : t) : bool := bool_decide (face_landmarks o = None).

(** [len(mp_holistic.PoseLandmark)], [len(mp_holistic.HandLandmark)] and
    [FACEMESH_NUM_LANDMARKS_WITH_IRISES] of the mediapipe package. *)
Definition num_body_points : nat := 33.
Definition num_single_hand_points : nat := 21.
Definition num_face_points : nat := 478.

Definition num_total_points : nat :=
  num_body_points + (2 * num_single_hand_points) + num_face_points.

(** [np.array([w, h, w])] is an int64 array for image sizes of the int64
    range, and [*=] converts its elements to float64. *)
Definition landmarks_to_array (o : t) (landmarks : list Landmark.t) : result Np.ndarray :=
  let landmark_array :=
    Np.array_of_triples
      ((fun landmark => (Landmark.x landmark, Landmark.y landmark, Landmark.z landmark))
         <$> landmarks) in
  Np.imul_vec3 landmark_array
    (float_of_int (image_size o).1, float_of_int (image_size o).2,
     float_of_int (image_size o).1).

(** A region's trajectories: the NaN block when the region is [None]. *)
Definition region_trajectories (o : t) (region : option (list Landmark.t))
    (num_points : nat) : result Np.ndarray :=
  match region with
  | None => Ok (Np.full [num_points; 3] nan)
  | Some landmarks => landmarks_to_array o landmarks
  end.

Definition pose_trajectories (o : t) : result Np.ndarray :=
  region_trajectories o (pose_landmarks o) num_body_points.

Definition right_hand_trajectories (o : t) : result Np.ndarray :=
  region_trajectories o (right_hand_landmarks o) num_single_hand_points.

Definition left_hand_trajectories (o : t) : result Np.ndarray :=
  region_trajectories o (left_hand_landmarks o) num_single_hand_points.

Definition face_trajectories (o : t) : result Np.ndarray :=
  region_trajectories o (face_landmarks o) num_face_points.

Definition all_holistic_trajectories (o : t) : result Np.ndarray :=
  pose ← pose_trajectories o;
  right_hand ← right_hand_trajectories o;
  left_hand ← left_hand_trajectories o;
  face ← face_trajectories o;
  Np.concatenate [pose; right_hand; left_hand; face].

Definition to_serializable_dict (o : t) : result (gmap string pyval) :=
  pose ← pose_trajectories o;
  right_hand ← right_hand_trajectories o;
  left_hand ← left_hand_trajectories o;
  face ← face_trajectories o;
  let d : gmap string pyval :=
    <["pose_trajectories" := tolist pose]>
    (<["right_hand_trajectories" := tolist right_hand]>
    (<["left_hand_trajectories" := tolist left_hand]>
    (<["face_trajectories" := tolist face]>
    (<["image_size" := PTuple [PInt (image_size o).1; PInt (image_size o).2]]> ∅)))) in
  match json_dumps true d with
  | Ok _ => Ok d
  | Raise _ => Raise (ValueError "Failed to serialize MediapipeObservation to JSON")
  end.

End MediapipeObservation.

(** ** openpose_recorder.py *)

(** [OpenPoseModelInfo]: the marker counts of the body, of one hand and of
    the face. *)
Record OpenPoseModelInfo := mk_info {
  num_tracked_points : nat;
  hand_markers : nat;
  face_markers : nat
}.

(** The counts of OpenPose's BODY_25 model with 21 hand and 70 face
    keypoints. *)
Definition body25_info : OpenPoseModelInfo := mk_info 25 21 70.

(** One entry of the [people] list of a result file: keypoint lists by
    key. *)
Abbreviation person := (gmap string (list float)).

(** A result file of the directory: its name and its decoded content. *)
Record json_file := mk_json_file {
  name : string;
  content : gmap string (list person)
}.

(** Dictionary subscript [d[key]]. *)
Definition getitem {V} (d : gmap string V) (key : string) : result V :=
  match d !! key with
  | Some v => Ok v
  | None => Raise (KeyError key)
  end.

(** [key in d]. *)
Definition contains {V} (d : gmap string V) (key : string) : bool :=
  bool_decide (is_Some (d !! key)).

Module OpenPoseRecorder.

Record t := mk {
  track_hands : bool;
  track_faces : bool
}.

(** [\d] on a code point below 256: the digits [0] to [9]. *)
Definition is_digit (c : ascii) : bool :=
  ((48 <=? nat_of_ascii c)%nat && (nat_of_ascii c <=? 57)%nat).

Definition digit_value (c : ascii) : Z := Z.of_nat (nat_of_ascii c - 48).

(** [n] decimal digits at the start of [s]: their value after [acc], and
    the rest of the string. *)
Fixpoint read_digits (n : nat) (s : string) (acc : Z) : option (Z * string) :=
  match n with
  | 0 => Some (acc, s)
  | S n' =>
      match s with
      | String c rest =>
          if is_digit c then read_digits n' rest (10 * acc + digit_value c)%Z
          else None
      | EmptyString => None
      end
  end.

(** The pattern [_(\d{12})_keypoints] at the start of [s]. *)
Definition match_here (s : string) : option Z :=
  match s with
  | String "_"%char rest =>
      match read_digits 12 rest 0%Z with
      | Some (v, rest') => if String.prefix "_keypoints" rest' then Some v else None
      | None => None
      end
  | _ => None
  end.

(** [re.search] of the pattern: the leftmost match, as an integer.
    A character of a file name is a code point below 256 (the type
    [ascii]); among these the decimal digits that [\d] matches and [int]
    converts are [0] to [9]. File names with other characters are outside
    the model. *)
Fixpoint extract_frame_index (filename : string) : option Z :=
  match match_here filename with
  | Some v => Some v
  | None =>
      match filename with
      | String _ rest => extract_frame_index rest
      | EmptyString => None
      end
  end.

(** The integers of a list without [None], if it has none. *)
Fixpoint all_some (l : list (option Z)) : option (list Z) :=
  match l with
  | [] => Some []
  | Some v :: rest => cons v <$> all_some rest
  | None :: _ => None
  end.

(** The name Python gives the type of a frame index. *)
Definition type_name (v : option Z) : string :=
  match v with
  | Some _ => "int"
  | None => "NoneType"
  end.

(** The TypeError of [lhs < rhs] when one operand is [None]. *)
Definition lt_not_supported (lhs rhs : option Z) : exn :=
  TypeError ("'<' not supported between instances of '" +:+ type_name lhs
             +:+ "' and '" +:+ type_name rhs +:+ "'").

(** The comparison at which [list.sort] meets the first [None]. The sort
    compares an element with elements before it, left to right, and begins
    with [l[1] < l[0]]: when [l[0]] is [None] the left operand is [l[1]];
    otherwise the first [None] is the left operand and an integer before
    it the right one. *)
Definition first_failed_comparison (l : list (option Z)) : exn :=
  match l with
  | None :: lhs :: _ => lt_not_supported lhs None
  | _ => lt_not_supported None (Some 0%Z)
  end.

(** [frame_indices.sort()]: comparing [None] with anything raises
    TypeError, and a list of at most one element is sorted without a
    comparison. *)
Definition sort_frame_indices (l : list (option Z)) : result (list (option Z)) :=
  match all_some l with
  | Some vs => Ok (Some <$> merge_sort Z.le vs)
  | None =>
      if bool_decide (length l ≤ 1)%nat then Ok l
      else Raise (first_failed_comparison l)
  end.

Section WithInfo.
Variable info : OpenPoseModelInfo.

Definition extract_keypoints (person_data : person) : result Np.ndarray :=
  let body_markers := num_tracked_points info in
  let hand_markers := hand_markers info in
  let face_markers := face_markers info in
  let keypoints_array :=
    Np.full [body_markers + (2 * hand_markers) + face_markers; 3] nan in
  keypoints_array ←
    (if contains person_data "pose_keypoints_2d" then
       values ← getitem person_data "pose_keypoints_2d";
       src ← Np.reshape_m1_3 values;
       Np.set_rows 0 body_markers keypoints_array (Np.take_rows body_markers src)
     else Ok keypoints_array);
  keypoints_array ←
    (if contains person_data "hand_left_keypoints_2d"
        && contains person_data "hand_right_keypoints_2d" then
       values ← getitem person_data "hand_left_keypoints_2d";
       src ← Np.reshape_m1_3 values;
       keypoints_array ←
         Np.set_rows body_markers (body_markers + hand_markers) keypoints_array
           (Np.take_rows hand_markers src);
       values ← getitem person_data "hand_right_keypoints_2d";
       src ← Np.reshape_m1_3 values;
       Np.set_rows (body_markers + hand_markers) (body_markers + 2 * hand_markers)
         keypoints_array (Np.take_rows hand_markers src)
     else Ok keypoints_array);
  if contains person_data "face_keypoints_2d" then
    values ← getitem person_data "face_keypoints_2d";
    src ← Np.reshape_m1_3 values;
    Np.set_rows (body_markers + 2 * hand_markers) (Np.nrows keypoints_array)
      keypoints_array (Np.take_rows face_markers src)
  else Ok keypoints_array.

Definition num_markers (self : t) : nat :=
  num_tracked_points info
  + (if track_hands self then hand_markers info * 2 else 0)
  + (if track_faces self then face_markers info else 0).

(** The body of the loop over [enumerate(files)], from position
    [file_index] on. *)
Fixpoint process_files (frame_indices : list (option Z)) (file_index : nat)
    (files : list json_file) (data_array : Np.ndarray) : result Np.ndarray :=
  match files with
  | [] => Ok data_array
  | file :: rest =>
      people ← getitem (content file) "people";
      data_array ←
        match people with
        | [] => Ok data_array
        | first_person :: _ =>
            keypoints ← extract_keypoints first_person;
            match frame_indices !! file_index with
            | Some (Some i) => Np.set_frame data_array i keypoints
            | Some None => Np.set_newaxis data_array keypoints
            | None => Raise (IndexError "list index out of range")
            end
        end;
      process_files frame_indices (S file_index) rest data_array
  end.

(** [files] is the result of [glob("*.json")] on the directory, in the
    order of discovery. *)
Definition parse_openpose_jsons (self : t) (files : list json_file) : result Np.ndarray :=
  let num_frames := length files in
  frame_indices ← sort_frame_indices ((fun f => extract_frame_index (name f)) <$> files);
  let data_array := Np.full [num_frames; num_markers self; 3] nan in
  process_files frame_indices 0 files data_array.

End WithInfo.

End OpenPoseRecorder.

(** ** brightest_point_recorder.py *)

(** Modelled from the spec: the declaration of [TrackedObject] is not part
    of the sources at hand; the recorder reads three numeric attributes of
    it, the point's (x, y, depth). *)
Record TrackedObject := mk_tracked_object {
  pixel_x : float;
  pixel_y : float;
  depth_z : float
}.

Module BrightestPointRecorder.

(** The state of [BaseRecorder]: the recorded objects and the array of the
    last compaction ([None] before the first one). *)
Record t := mk {
  recorded_objects : list TrackedObject;
  recorded_objects_array : option Np.ndarray
}.

(** [BaseRecorder.__init__]. *)
Definition init : t := mk [] None.

Definition record (self : t) (tracked_objects : gmap string TrackedObject) : result t :=
  brightest_point ← getitem tracked_objects "brightest_point";
  Ok (mk (recorded_objects self ++ [brightest_point]) (recorded_objects_array self)).

(** The loop over [enumerate(self.recorded_objects)], from index [i] on. *)
Fixpoint fill_recorded_objects (i : nat) (objects : list TrackedObject)
    (array : Np.ndarray) : result Np.ndarray :=
  match objects with
  | [] => Ok array
  | recorded_object :: rest =>
      array ← Np.set_item3 array i 0 0 (pixel_x recorded_object);
      array ← Np.set_item3 array i 0 1 (pixel_y recorded_object);
      array ← Np.set_item3 array i 0 2 (depth_z recorded_object);
      fill_recorded_objects (S i) rest array
  end.

(** Returns the new state of the recorder and the array. *)
Definition process_tracked_objects (self : t) : result (t * Np.ndarray) :=
  array ← fill_recorded_objects 0 (recorded_objects self)
             (Np.zeros [length (recorded_objects self); 1; 3]);
  Ok (mk (recorded_objects self) (Some array), array).

(** [BaseRecorder.clear_recorded_objects]. *)
Definition clear_recorded_objects (self : t) : t := mk [] None.

End BrightestPointRecorder.

(** ** process_folder_of_videos.py *)

(** A path, as the list of its components. *)
Abbreviation path := (list string).

(** The fields of the tracking parameters that [get_tracker] reads. *)
Record tracking_params := mk_tracking_params {
  mediapipe_model_complexity : Z;
  min_detection_confidence : float;
  min_tracking_confidence : float;
  static_image_mode : bool
}.

(** The trackers [get_tracker] constructs, with their constructor
    arguments. *)
Inductive tracker :=
| MediapipeHolisticTracker (model_complexity : Z)
    (min_detection_confidence min_tracking_confidence : float) (static_image_mode : bool)
| YOLOMediapipeComboTracker (model_complexity : Z)
    (min_detection_confidence min_tracking_confidence : float) (static_image_mode : bool)
| YOLOPoseTracker (model_size : string)
| BrightestPointTracker.

Definition file_name_dictionary : gmap string string :=
  <["MediapipeHolisticTracker" := "mediapipe2dData_numCams_numFrames_numTrackedPoints_pixelXY.npy"]>
  (<["YOLOMediapipeComboTracker" := "mediapipe2dData_numCams_numFrames_numTrackedPoints_pixelXY.npy"]>
  (<["YOLOPoseTracker" := "yolo2dData_numCams_numFrames_numTrackedPoints_pixelXY.npy"]>
  (<["BrightestPointTracker" := "brightestPoint2dData_numCams_numFrames_numTrackedPoints_pixelXY.npy"]> ∅))).

Definition get_tracker (tracker_name : string) (params : tracking_params) : result tracker :=
  if String.eqb tracker_name "MediapipeHolisticTracker" then
    Ok (MediapipeHolisticTracker (mediapipe_model_complexity params)
          (min_detection_confidence params) (min_tracking_confidence params)
          (static_image_mode params))
  else if String.eqb tracker_name "YOLOMediapipeComboTracker" then
    Ok (YOLOMediapipeComboTracker (mediapipe_model_complexity params)
          (min_detection_confidence params) (min_tracking_confidence params) true)
  else if String.eqb tracker_name "YOLOPoseTracker" then
    Ok (YOLOPoseTracker "medium")
  else if String.eqb tracker_name "BrightestPointTracker" then
    Ok BrightestPointTracker
  else Raise (ValueError "Invalid tracker type").

(** [Path.parent]. *)
Definition parent (p : path) : path := removelast p.

(** Whether [s] ends with [suffix]. *)
Definition ends_with (suffix s : string) : bool :=
  String.eqb
    (String.substring (String.length s - String.length suffix) (String.length suffix) s)
    suffix
  && (String.length suffix <=? String.length s)%nat.

(** The file [np.save] writes for a path: the extension .npy is appended
    to a file name that does not end with it. *)
Definition npy_path (p : path) : path :=
  match last p with
  | Some file_name =>
      if ends_with ".npy" file_name then p
      else removelast p ++ [file_name +:+ ".npy"]
  | None => p
  end.

(** A task of the batch: the arguments of [process_single_video]. *)
Record task := mk_task {
  task_tracker_name : string;
  task_tracking_params : tracking_params;
  task_video_path : path;
  task_annotated_video_path : path
}.

(** [Pool.starmap]'s gathering of results.  [schedule] lists the task
    indices in the order in which the workers complete them; each result is
    stored at the index of its task, the first failure (in completion
    order) is the one re-raised, and the results are returned in the order
    of the tasks. *)
Definition store_result {A B} (f : A → result B) (tasks : list A)
    (slots : list (option (result B))) (i : nat) : list (option (result B)) :=
  match tasks !! i with
  | Some t => <[i := Some (f t)]> slots
  | None => slots
  end.

Definition failure_of {B} (r : option (result B)) : option exn :=
  match r with
  | Some (Raise e) => Some e
  | _ => None
  end.

Definition value_of {B} (r : option (result B)) : option B :=
  match r with
  | Some (Ok b) => Some b
  | _ => None
  end.

(** A schedule of the pool completes every task once: it is a permutation
    of the task indices. *)
Definition starmap {A B} (schedule : list nat) (f : A → result B) (tasks : list A)
    : result (list B) :=
  let slots := foldl (store_result f tasks) (replicate (length tasks) None) schedule in
  let completed := (fun i => f <$> tasks !! i) <$> schedule in
  match head (omap failure_of completed) with
  | Some e => Raise e
  | None => Ok (omap value_of slots)
  end.

(** The sequential loop over the tasks, appending each result to
    [array_list]; the first exception ends it. *)
Fixpoint sequential_map {A B} (f : A → result B) (tasks : list A) : result (list B) :=
  match tasks with
  | [] => Ok []
  | t :: rest =>
      b ← f t;
      bs ← sequential_map f rest;
      Ok (b :: bs)
  end.

Section Batch.

(** [Path.stem] of the standard library. *)
Variable stem : string → string.

(** [tracker.process_video(input_video_filepath, output_video_filepath,
    save_data_bool=False)] of a freshly constructed tracker: the per-video
    array of the video, or the exception it raises.  The trackers' video
    loops are not part of the sources at hand. *)
Variable process_video : tracker → path → path → result Np.ndarray.

Definition process_single_video (t : task) : result Np.ndarray :=
  let video_name := stem (default "" (last (task_video_path t))) +:+ "_mediapipe.mp4" in
  tracker ← get_tracker (task_tracker_name t) (task_tracking_params t);
  process_video tracker (task_video_path t) (task_annotated_video_path t ++ [video_name]).

(** The default of [num_processes]. *)
Definition default_num_processes (cpu_count : Z) (videos : list path) : Z :=
  Z.min (cpu_count - 1) (Z.of_nat (length videos)).

(** What the function sees of its environment: [cpu_count()], the result
    of [glob("*.mp4")] on the input directory in the order of discovery,
    and the completion order of the pool's tasks. *)
Record environment := mk_environment {
  cpu_count : Z;
  videos : list path;
  schedule : list nat
}.

(** The default of [annotated_video_path]. *)
Definition resolve_annotated_video_path (synchronized_video_path : path)
    (annotated_video_path : option path) : path :=
  match annotated_video_path with
  | None => (parent synchronized_video_path ++ ["annotated_videos"])%list
  | Some p => p
  end.

(** The default of [output_path]. *)
Definition resolve_output_path (synchronized_video_path : path)
    (output_path : option path) (file_name : string) : path :=
  match output_path with
  | None => (parent synchronized_video_path ++ ["output_data"; "raw_data"; file_name])%list
  | Some p => p
  end.

(** The list of tasks, one per discovered video. *)
Definition make_tasks (env : environment) (tracker_name : string)
    (params : tracking_params) (annotated_video_path : path) : list task :=
  (fun video_path => mk_task tracker_name params video_path annotated_video_path)
    <$> videos env.

(** Returns the combined array and the file written by [np.save]; nothing
    is saved when an exception is raised. *)
Definition process_folder_of_videos (env : environment)
    (tracker_name : string) (params : tracking_params)
    (synchronized_video_path : path) (output_path annotated_video_path : option path)
    (num_processes : option Z) : result (Np.ndarray * (path * Np.ndarray)) :=
  let num_processes :=
    match num_processes with
    | None => default_num_processes (cpu_count env) (videos env)
    | Some n => n
    end in
  file_name ← getitem file_name_dictionary tracker_name;
  let output_path := resolve_output_path synchronized_video_path output_path file_name in
  let annotated_video_path :=
    resolve_annotated_video_path synchronized_video_path annotated_video_path in
  let tasks := make_tasks env tracker_name params annotated_video_path in
  array_list ←
    (if bool_decide (1 < num_processes)%Z
     then starmap (schedule env) process_single_video tasks
     else sequential_map process_single_video tasks);
  combined_array ← Np.stack array_list;
  Ok (combined_array, (npy_path output_path, combined_array)).

End Batch.

(** ** Vocabulary of the statements *)

(** The elements of a triple, in order. *)
Definition flat3 (t : float * float * float) : list float := [t.1.1; t.1.2; t.2].

(** The pixel coordinates of a landmark in an image of size [size]. *)
Definition scaled (size : Z * Z) (lm : Landmark.t) : list float :=
  [(Landmark.x lm * float_of_int size.1)%float;
   (Landmark.y lm * float_of_int size.2)%float;
   (Landmark.z lm * float_of_int size.1)%float].

(** A region is complete when it is [None] or holds as many landmarks as
    its schema has points. *)
Definition region_complete (region : option (list Landmark.t)) (num_points : nat) : Prop :=
  match region with
  | None => True
  | Some landmarks => length landmarks = num_points
  end.

(** The elements of a region's block: NaN for a missing region, the pixel
    coordinates of its landmarks otherwise. *)
Definition region_block (size : Z * Z) (region : option (list Landmark.t))
    (num_points : nat) : list float :=
  match region with
  | None => replicate (num_points * 3) nan
  | Some landmarks => landmarks ≫= scaled size
  end.

(** The (x, y, depth) of a recorded object. *)
Definition point (obj : TrackedObject) : list float :=
  [pixel_x obj; pixel_y obj; depth_z obj].

(** The number of rows of the array [extract_keypoints] builds. *)
Definition all_markers (info : OpenPoseModelInfo) : nat :=
  num_tracked_points info + (2 * hand_markers info) + face_markers info.

(** *** Example inputs *)

(** Only the right hand was detected. *)
Definition observation_hand_only : MediapipeObservation.t :=
  MediapipeObservation.mk None (Some (replicate 21 (Landmark.mk 0.5 0.25 0))) None None
    (640, 480)%Z.

(** A face of 468 landmarks (the face mesh without irises), nothing else
    detected. *)
Definition observation_face_468 : MediapipeObservation.t :=
  MediapipeObservation.mk None None None (Some (replicate 468 (Landmark.mk 0.5 0.5 0)))
    (640, 480)%Z.

(** Nothing was detected. *)
Definition observation_nothing_detected : MediapipeObservation.t :=
  MediapipeObservation.mk None None None None (640, 480)%Z.

(** Two pose landmarks in a 640 x 480 image. *)
Definition two_landmarks : list Landmark.t :=
  [Landmark.mk 0.5 0.25 0.125; Landmark.mk 0.75 0.5 (-0.5)].

(** A person with the 25 body keypoints only. *)
Definition body_only_person : person :=
  <["pose_keypoints_2d" := replicate 75 0.5%float]> ∅.

Definition result_file (file_name : string) (people : list person) : json_file :=
  mk_json_file file_name (<["people" := people]> ∅).

(** The file of frame 1 reports a person, the file of frame 0 reports
    none. *)
Definition frame_1_with_person : json_file :=
  result_file "video_000000000001_keypoints.json" [body_only_person].

Definition frame_0_without_people : json_file :=
  result_file "video_000000000000_keypoints.json" [].

Definition frame_0_with_person : json_file :=
  result_file "video_000000000000_keypoints.json" [body_only_person].

(** Two cameras whose videos have two frames each, processed by the
    brightest-point tracker; the pool completes the second video first. *)
Definition two_frame_video (t : tracker) (video output : path) : result Np.ndarray :=
  Ok (Np.zeros [2; 1; 3]).

(** A processor whose array tells the cameras apart: zeros for cam0.mp4,
    ones for any other video. *)
Definition video_by_camera (t : tracker) (video output : path) : result Np.ndarray :=
  if bool_decide (video = ["videos"; "cam0.mp4"])
  then Ok (Np.zeros [2; 1; 3])
  else Ok (Np.full [2; 1; 3] 1%float).

Definition two_cameras : environment :=
  mk_environment 8 [["videos"; "cam0.mp4"]; ["videos"; "cam1.mp4"]] [1; 0].

Definition default_params : tracking_params := mk_tracking_params 2 0.5 0.5 false.

(** A directory without videos on a machine with eight cores. *)
Definition no_cameras : environment := mk_environment 8 [] [].

(** ** charuco_detector.py *)

(** [range(n)] of Python: empty for a negative [n]. *)
Definition py_range (n : Z) : list Z := Z.of_nat <$> seq 0 (Z.to_nat n).

Module CharucoDetectorConfig.

(** The numeric fields of the configuration (the marker dictionary is an
    object of the cv2 library). *)
Record t := mk {
  squares_x : Z;
  squares_y : Z;
  square_length : float;
  marker_length : float
}.

(** The defaults of the class: a 5 x 3 board, square length 1 and marker
    length 0.8. *)
Definition default : t := mk 5 3 1 0x1.999999999999ap-1.

Definition charuco_corner_ids (self : t) : list Z :=
  py_range ((squares_x self - 1) * (squares_y self - 1)).

(** The one array of the returned list, as the list of its rows
    [x, y, 0]. *)
Definition charuco_corners_in_object_coordinates (self : t) : list (list (Z * Z * Z)) :=
  [ py_range (squares_x self - 1) ≫= fun x =>
    py_range (squares_y self - 1) ≫= fun y => [(x, y, 0%Z)] ].

End CharucoDetectorConfig.

(** ** base_recorder.py *)

(** [BaseRecorder.save] for the brightest-point recorder.  [files] are the
    .npy files on disk; the array is compacted first only when no array is
    cached, and the cached array is the one written. *)
Definition recorder_save (self : BrightestPointRecorder.t) (file_path : path)
    (files : gmap path Np.ndarray)
    : result (BrightestPointRecorder.t * gmap path Np.ndarray) :=
  match BrightestPointRecorder.recorded_objects_array self with
  | None =>
      r ← BrightestPointRecorder.process_tracked_objects self;
      Ok (r.1, <[npy_path file_path := r.2]> files)
  | Some array => Ok (self, <[npy_path file_path := array]> files)
  end.

(** ** Further vocabulary *)

(** A two-dimensional array with [r] rows and [c] columns. *)
Definition is_matrix (a : Np.ndarray) (r c : nat) : Prop :=
  Np.shape a = [r; c] ∧ length (Np.data a) = (r * c)%nat.

(** The array of a list of recorded objects. *)
Definition recorded_array (objects : list TrackedObject) : Np.ndarray :=
  Np.mk_ndarray [length objects; 1; 3] (objects ≫= point).

Section openpose_vocabulary.
Import OpenPoseRecorder.

(** What a result file contributes to its frame: nothing when it reports
    nobody, the keypoints of the first person otherwise. *)
Definition file_row (info : OpenPoseModelInfo) (file : json_file)
    : result (option Np.ndarray) :=
  people ← getitem (content file) "people";
  match people with
  | [] => Ok None
  | first_person :: _ => keypoints ← extract_keypoints info first_person; Ok (Some keypoints)
  end.

(** The elements of a frame: NaN when nothing was written. *)
Definition row_data (info : OpenPoseModelInfo) (r : option Np.ndarray) : list float :=
  match r with
  | None => replicate (all_markers info * 3)%nat nan
  | Some keypoints => Np.data keypoints
  end.

(** The sorted frame indices 0, 1, ..., n-1. *)
Definition consecutive_indices (n : nat) : list (option Z) :=
  (fun i => Some (Z.of_nat i)) <$> seq 0 n.

(** The block of [count] rows a key of the person contributes: its first
    [count] keypoints, or NaN when the key is absent. *)
Definition key_block (person_data : person) (key : string) (count : nat) : list float :=
  match person_data !! key with
  | Some values => take (count * 3)%nat values
  | None => replicate (count * 3)%nat nan
  end.

(** The values of a key, when present, are whole (x, y, confidence)
    triples and at least [count] of them. *)
Definition well_sized (person_data : person) (key : string) (count : nat) : Prop :=
  match person_data !! key with
  | Some values => (length values mod 3 = 0 ∧ count * 3 ≤ length values)%nat
  | None => True
  end.

(** The two hand blocks: filled only when both hand keys are present. *)
Definition hands_block (person_data : person) (count : nat) : list float :=
  if contains person_data "hand_left_keypoints_2d"
     && contains person_data "hand_right_keypoints_2d"
  then (key_block person_data "hand_left_keypoints_2d" count
        ++ key_block person_data "hand_right_keypoints_2d" count)%list
  else (replicate (count * 3)%nat nan ++ replicate (count * 3)%nat nan)%list.

(** The character of a decimal digit. *)
Definition digit_char (d : nat) : ascii := ascii_of_nat (48 + d)%nat.

(** The text of a list of decimal digits, most significant first, and the
    number it denotes. *)
Fixpoint string_of_digits (ds : list nat) : string :=
  match ds with
  | [] => EmptyString
  | d :: ds => String (digit_char d) (string_of_digits ds)
  end.

Definition digits_value (ds : list nat) : Z :=
  foldl (fun acc d => (10 * acc + Z.of_nat d)%Z) 0%Z ds.

(** Whether [pattern] occurs in [s]. *)
Fixpoint occurs (pattern s : string) : bool :=
  String.prefix pattern s
  || match s with
     | String _ rest => occurs pattern rest
     | EmptyString => false
     end.

(** The name OpenPose gives the result file of a frame. *)
Definition keypoints_file_name (video : string) (ds : list nat) (extension : string)
    : string :=
  (video +:+ String "_"%char (string_of_digits ds +:+ "_keypoints" +:+ extension)).

End openpose_vocabulary.

Section mediapipe_vocabulary.
Import MediapipeObservation.

(** The number of rows a region contributes: its schema count when it is
    missing, the number of its landmarks otherwise. *)
Definition region_rows (region : option (list Landmark.t)) (num_points : nat) : nat :=
  match region with
  | None => num_points
  | Some landmarks => length landmarks
  end.

(** A region that is present but holds no landmark. *)
Definition region_is_empty (region : option (list Landmark.t)) : Prop :=
  region = Some [].

Definition has_empty_region (o : MediapipeObservation.t) : Prop :=
  region_is_empty (pose_landmarks o) ∨ region_is_empty (right_hand_landmarks o)
  ∨ region_is_empty (left_hand_landmarks o) ∨ region_is_empty (face_landmarks o).

(** The floats of a nested list, in order. *)
Fixpoint pyval_floats (v : pyval) : list float :=
  match v with
  | PFloat f => [f]
  | PInt _ => []
  | PList l => concat (pyval_floats <$> l)
  | PTuple l => concat (pyval_floats <$> l)
  end.

#[global] Instance region_is_empty_dec region : Decision (region_is_empty region).
Proof. unfold region_is_empty. destruct region as [[|]|]; (by left) || (by right). Defined.

End mediapipe_vocabulary.

(** *** Further example inputs *)

(** The keypoints of [body_only_person]: 25 body rows, then NaN. *)
Definition body_only_keypoints : Np.ndarray :=
  Np.mk_ndarray [137; 3] (replicate 75 0.5%float ++ replicate 336 nan)%list.

(** A file that is not a result file of a frame. *)
Definition unnamed_file : json_file := result_file "notes.json" [].

(** A result file without the [people] key. *)
Definition file_without_people : json_file :=
  mk_json_file "video_000000000000_keypoints.json" ∅.

(** A person whose pose list is not made of whole triples. *)
Definition malformed_person : person :=
  <["pose_keypoints_2d" := [1; 2; 3; 4]%float]> ∅.

(** The digits of frame 12. *)
Definition frame_12_digits : list nat := [0; 0; 0; 0; 0; 0; 0; 0; 0; 0; 1; 2].

Definition one_brightest_point : gmap string TrackedObject :=
  <["brightest_point" := mk_tracked_object 100 50 0]> ∅.

Definition recorder_with_one_object : BrightestPointRecorder.t :=
  BrightestPointRecorder.mk [mk_tracked_object 10 20 0] None.

(** The second camera's video cannot be read. *)
Definition second_video_unreadable (t : tracker) (video output : path)
    : result Np.ndarray :=
  if bool_decide (video = ["videos"; "cam1.mp4"])
  then Raise (ValueError "Failed to load an image")
  else Ok (Np.zeros [2; 1; 3]).

(** * Facts *)

(** ** Exceptions *)

Lemma not_raises_Ok {A} (a : A) : ¬ raises (Ok a).
Proof. exact id. Qed.

Lemma raises_not_Ok {A} (m : result A) : raises m ↔ ∀ a, m ≠ Ok a.
Proof. destruct m; cbn; split; try done. intros H. by apply (H a). Qed.

Lemma bind_Ok {A B} (m : result A) (k : A → result B) b :
  m ≫= k = Ok b → ∃ a, m = Ok a ∧ k a = Ok b.
Proof. destruct m as [a|e]; cbn; [by exists a|done]. Qed.

Lemma raises_bind {A B} (m : result A) (k : A → result B) :
  raises m → raises (m ≫= k).
Proof. by destruct m. Qed.

(** ** Slices of row-major data *)

Section slices.
Context {A : Type}.
Implicit Types l : list A.

Lemma slice_app_middle l1 l2 l3 lo n :
  length l1 = lo → length l2 = n → take n (drop lo (l1 ++ l2 ++ l3)) = l2.
Proof.
  intros <- <-. rewrite drop_app_length. apply take_app_length.
Qed.

Lemma bind_length_const {B} (g : B → list A) (k : nat) (l : list B) :
  (∀ t, length (g t) = k) → length (l ≫= g) = length l * k.
Proof.
  intros Hg. induction l as [|t l IH]; [done|].
  rewrite bind_cons, length_app, Hg, IH. simpl. lia.
Qed.

Lemma bind_slice {B} (g : B → list A) (k : nat) (l : list B) i t :
  (∀ t, length (g t) = k) → l !! i = Some t →
  take k (drop (i * k) (l ≫= g)) = g t.
Proof.
  intros Hg. revert i. induction l as [|t' l IH]; intros [|i] Hi;
    [done | done | injection Hi as -> | change (l !! i = Some t) in Hi].
  - rewrite bind_cons. change (0 * k) with 0. rewrite drop_0. rewrite <- (Hg t) at 1. apply take_app_length.
  - rewrite bind_cons.
    replace (S i * k) with (length (g t') + i * k) by (rewrite Hg; lia).
    rewrite <- drop_drop, drop_app_length. by apply IH.
Qed.
End slices.


Lemma imap_scale_triples v (l : list (float * float * float)) :
  imap (fun i x => (x * Np.pick3 v (i mod 3))%float) (l ≫= flat3)
  = l ≫= (fun t => [(t.1.1 * v.1.1)%float; (t.1.2 * v.1.2)%float; (t.2 * v.2)%float]).
Proof.
  induction l as [|t l IH]; [done|].
  rewrite !bind_cons. cbn [flat3 app]. rewrite !imap_cons.
  rewrite <- IH. do 3 f_equal.
  apply imap_ext. intros i x _. unfold compose.
  replace (S (S (S i)) mod 3) with (i mod 3); [done|].
  change (S (S (S i))) with (3 + i). rewrite Nat.add_comm.
  replace (i + 3) with (i + 1 * 3) by lia. by rewrite Nat.Div0.mod_add.
Qed.

Lemma concat_slice {A} (ls : list (list A)) k i l :
  Forall (fun l => length l = k) ls → ls !! i = Some l →
  take k (drop (i * k) (concat ls)) = l.
Proof.
  intros Hall. revert i. induction Hall as [|l' ls Hl' Hall IH]; intros [|i] Hi;
    [done | done | injection Hi as -> | change (ls !! i = Some l) in Hi].
  - cbn [concat]. change (0 * k) with 0. rewrite drop_0. subst k. apply take_app_length.
  - cbn [concat]. replace (S i * k) with (length l' + i * k) by lia.
    rewrite <- drop_drop, drop_app_length. by apply IH.
Qed.

(** ** MediapipeObservation *)

Section mediapipe_facts.
Import MediapipeObservation.


Lemma landmarks_to_array_nonempty o landmarks :
  landmarks ≠ [] →
  landmarks_to_array o landmarks
  = Ok (Np.mk_ndarray [length landmarks; 3] (landmarks ≫= scaled (image_size o))).
Proof.
  intros Hne. unfold landmarks_to_array, Np.array_of_triples.
  set (f := fun landmark => (Landmark.x landmark, Landmark.y landmark, Landmark.z landmark)).
  assert (Hlen : length (f <$> landmarks) = length landmarks) by apply length_fmap.
  destruct (f <$> landmarks) as [|t ts] eqn:E.
  { destruct landmarks; done. }
  rewrite <- E. unfold Np.imul_vec3. cbn [Np.shape last Np.data].
  change (fun t : float * float * float => [t.1.1; t.1.2; t.2]) with flat3.
  rewrite imap_scale_triples, length_fmap. do 2 f_equal.
  clear. induction landmarks as [|lm l IH]; [done|].
  rewrite fmap_cons, !bind_cons, IH. done.
Qed.

Lemma landmarks_to_array_empty o :
  raises (landmarks_to_array o []).
Proof. exact I. Qed.

(** The conversion does not wrap at the ends of the int64 range, and it
    rounds to the nearest binary64 number. *)
Lemma float_of_int_int64_ends :
  float_of_int (- 2 ^ 63) = (-0x1p+63)%float
  ∧ float_of_int (2 ^ 63 - 1) = 0x1p+63%float
  ∧ float_of_int (2 ^ 53 + 1) = 0x1p+53%float.
Proof. repeat split; vm_compute; reflexivity. Qed.

(** C8: for a non-empty landmark list and any image size (width, height)
    that numpy holds as int64, [landmarks_to_array] returns an array with
    one row per landmark, and the row of the landmark (x, y, z) is
    (x * width, y * height, z * width), width and height converted to the
    nearest binary64 number: the depth is scaled by the width. *)
Theorem landmarks_to_array_scales_depth_by_width
    (o : MediapipeObservation.t) (landmarks : list Landmark.t) :
  landmarks ≠ [] →
  int64 (image_size o).1 → int64 (image_size o).2 →
  ∃ a, landmarks_to_array o landmarks = Ok a
       ∧ Np.shape a = [length landmarks; 3]
       ∧ ∀ i lm, landmarks !! i = Some lm →
           Np.row a i =
             [(Landmark.x lm * float_of_int (image_size o).1)%float;
              (Landmark.y lm * float_of_int (image_size o).2)%float;
              (Landmark.z lm * float_of_int (image_size o).1)%float].
Proof.
  intros Hne _ _. eexists. split; [by apply landmarks_to_array_nonempty|].
  split; [done|]. intros i lm Hi.
  unfold Np.row, Np.rows, Np.ncols. cbn [Np.shape Np.data tl hd].
  rewrite Nat.mul_1_l.
  by rewrite (bind_slice (scaled (image_size o)) 3 landmarks i lm).
Qed.



Lemma region_trajectories_complete o region n :
  0 < n → region_complete region n →
  region_trajectories o region n
  = Ok (Np.mk_ndarray [n; 3] (region_block (image_size o) region n))
  ∧ length (region_block (image_size o) region n) = n * 3.
Proof.
  intros Hn Hc. destruct region as [landmarks|]; cbn [region_trajectories region_block].
  - cbn in Hc. subst n. split.
    + rewrite landmarks_to_array_nonempty; [done|]. by destruct landmarks; [cbn in Hn; lia|].
    + by apply bind_length_const.
  - split; [|by rewrite length_replicate].
    unfold Np.full, Np.size_of. cbn [foldr]. by rewrite Nat.mul_1_r.
Qed.

Lemma concatenate4 n1 n2 n3 n4 d1 d2 d3 d4 :
  Np.concatenate [Np.mk_ndarray [n1; 3] d1; Np.mk_ndarray [n2; 3] d2;
                  Np.mk_ndarray [n3; 3] d3; Np.mk_ndarray [n4; 3] d4]
  = Ok (Np.mk_ndarray [n1 + n2 + n3 + n4; 3] (d1 ++ d2 ++ d3 ++ d4)).
Proof.
  unfold Np.concatenate. cbn. do 3 f_equal; [lia|]. by rewrite app_nil_r.
Qed.

(** C1 (as amended): when every region that is present holds as many
    landmarks as its schema has points, then whatever subset of the regions
    is [None] (all of them included) [all_holistic_trajectories] has
    [num_body_points + 2 * num_single_hand_points + num_face_points] rows of
    (x, y, depth), and the block of every missing region is entirely NaN. *)
Theorem all_holistic_trajectories_rows (o : MediapipeObservation.t) :
  region_complete (pose_landmarks o) num_body_points →
  region_complete (right_hand_landmarks o) num_single_hand_points →
  region_complete (left_hand_landmarks o) num_single_hand_points →
  region_complete (face_landmarks o) num_face_points →
  ∃ a, all_holistic_trajectories o = Ok a
    ∧ Np.shape a = [num_body_points + 2 * num_single_hand_points + num_face_points; 3]
    ∧ Np.wf a
    ∧ (pose_landmarks o = None →
       Np.rows a 0 num_body_points = replicate (num_body_points * 3) nan)
    ∧ (right_hand_landmarks o = None →
       Np.rows a num_body_points num_single_hand_points
       = replicate (num_single_hand_points * 3) nan)
    ∧ (left_hand_landmarks o = None →
       Np.rows a (num_body_points + num_single_hand_points) num_single_hand_points
       = replicate (num_single_hand_points * 3) nan)
    ∧ (face_landmarks o = None →
       Np.rows a (num_body_points + 2 * num_single_hand_points) num_face_points
       = replicate (num_face_points * 3) nan).
Proof.
  intros Hp Hr Hl Hf.
  assert (Hb0 : 0 < num_body_points) by (unfold num_body_points; lia).
  assert (Hh0 : 0 < num_single_hand_points) by (unfold num_single_hand_points; lia).
  assert (Hf0 : 0 < num_face_points) by (unfold num_face_points; lia).
  destruct (region_trajectories_complete o _ _ Hb0 Hp) as [Ep Lp].
  destruct (region_trajectories_complete o _ _ Hh0 Hr) as [Er Lr].
  destruct (region_trajectories_complete o _ _ Hh0 Hl) as [El Ll].
  destruct (region_trajectories_complete o _ _ Hf0 Hf) as [Ef Lf].
  unfold all_holistic_trajectories, pose_trajectories, right_hand_trajectories,
    left_hand_trajectories, face_trajectories.
  rewrite Ep, Er, El, Ef. cbn [mbind result_bind].
  rewrite concatenate4.
  generalize dependent num_body_points. generalize dependent num_single_hand_points.
  generalize dependent num_face_points. intros nf _ _ ? ? nh _ ? ? ? ? ? ? nb _ ? ? ?.
  eexists. split; [done|]. cbn [Np.shape].
  split; [do 2 f_equal; lia|].
  split.
  { unfold Np.wf, Np.size_of. cbn [Np.data Np.shape foldr]. rewrite !length_app. lia. }
  unfold Np.rows, Np.ncols. cbn [Np.shape Np.data tl hd].
  repeat split; intros ->; cbn [region_block].
  - rewrite Nat.mul_0_l, drop_0. apply take_app_length'. by rewrite length_replicate.
  - apply slice_app_middle; [done|by rewrite length_replicate].
  - rewrite (assoc_L app).
    apply slice_app_middle; [rewrite length_app; lia|by rewrite length_replicate].
  - rewrite !(assoc_L app), drop_app_length'; [|rewrite !length_app; lia].
    apply take_ge. by rewrite length_replicate.
Qed.


Lemma all_holistic_trajectories_rows_witness :
  ∃ a, all_holistic_trajectories observation_hand_only = Ok a
    ∧ Np.shape a = [num_body_points + 2 * num_single_hand_points + num_face_points; 3]
    ∧ Np.wf a
    ∧ (pose_landmarks observation_hand_only = None →
       Np.rows a 0 num_body_points = replicate (num_body_points * 3) nan)
    ∧ (right_hand_landmarks observation_hand_only = None →
       Np.rows a num_body_points num_single_hand_points
       = replicate (num_single_hand_points * 3) nan)
    ∧ (left_hand_landmarks observation_hand_only = None →
       Np.rows a (num_body_points + num_single_hand_points) num_single_hand_points
       = replicate (num_single_hand_points * 3) nan)
    ∧ (face_landmarks observation_hand_only = None →
       Np.rows a (num_body_points + 2 * num_single_hand_points) num_face_points
       = replicate (num_face_points * 3) nan).
Proof.
  apply (all_holistic_trajectories_rows observation_hand_only);
    [exact I | reflexivity | exact I | exact I].
Defined.


(** With a face of 468 landmarks the array has 543 rows, not the 553 of
    the schema. *)
Lemma all_holistic_trajectories_rows_vary :
  ∃ a, all_holistic_trajectories observation_face_468 = Ok a
    ∧ Np.shape a = [543; 3]
    ∧ Np.shape a ≠ [num_body_points + 2 * num_single_hand_points + num_face_points; 3].
Proof.
  eexists. split; [vm_compute; reflexivity|]. split; [reflexivity|]. cbn [Np.shape].
  intros [=].
Qed.

Lemma json_encodable_allow_nan : ∀ v, json_encodable true v = true.
Proof.
  fix IH 1. intros [f|n|l|l]; cbn [json_encodable]; try reflexivity.
  - induction l as [|v l IHl]; [reflexivity|]. cbn [forallb]. by rewrite IH, IHl.
  - induction l as [|v l IHl]; [reflexivity|]. cbn [forallb]. by rewrite IH, IHl.
Qed.

Lemma json_dumps_allow_nan d : json_dumps true d = Ok ().
Proof.
  unfold json_dumps. rewrite (proj2 (forallb_forall _ _)); [done|].
  intros kv _. apply json_encodable_allow_nan.
Qed.

Lemma to_serializable_dict_ok o pose right_hand left_hand face :
  pose_trajectories o = Ok pose →
  right_hand_trajectories o = Ok right_hand →
  left_hand_trajectories o = Ok left_hand →
  face_trajectories o = Ok face →
  ∃ d, to_serializable_dict o = Ok d
    ∧ d !! "pose_trajectories" = Some (tolist pose)
    ∧ d !! "right_hand_trajectories" = Some (tolist right_hand)
    ∧ d !! "left_hand_trajectories" = Some (tolist left_hand)
    ∧ d !! "face_trajectories" = Some (tolist face)
    ∧ d !! "image_size" = Some (PTuple [PInt (image_size o).1; PInt (image_size o).2]).
Proof.
  intros Ep Er El Ef. unfold to_serializable_dict.
  rewrite Ep, Er, El, Ef. cbn [mbind result_bind]. rewrite json_dumps_allow_nan.
  eexists. split; [reflexivity|]. repeat split; by simplify_map_eq.
Qed.

(** C6 (as amended): [to_serializable_dict] makes no finiteness check.
    Whenever the four region trajectories can be computed it returns the
    dictionary, whose entries are the nested lists of these trajectories
    unchanged (NaN and infinities included, since [json.dumps] is called
    with its default [allow_nan=True]) and the image size. *)
Theorem to_serializable_dict_keeps_non_finite_values (o : MediapipeObservation.t)
    (pose right_hand left_hand face : Np.ndarray) :
  pose_trajectories o = Ok pose →
  right_hand_trajectories o = Ok right_hand →
  left_hand_trajectories o = Ok left_hand →
  face_trajectories o = Ok face →
  ∃ d, to_serializable_dict o = Ok d
    ∧ d !! "pose_trajectories" = Some (tolist pose)
    ∧ d !! "right_hand_trajectories" = Some (tolist right_hand)
    ∧ d !! "left_hand_trajectories" = Some (tolist left_hand)
    ∧ d !! "face_trajectories" = Some (tolist face)
    ∧ d !! "image_size" = Some (PTuple [PInt (image_size o).1; PInt (image_size o).2]).
Proof. apply to_serializable_dict_ok. Qed.

Lemma to_serializable_dict_keeps_non_finite_values_witness :
  ∃ d, to_serializable_dict observation_nothing_detected = Ok d
    ∧ d !! "pose_trajectories" = Some (tolist (Np.full [num_body_points; 3] nan))
    ∧ d !! "right_hand_trajectories"
      = Some (tolist (Np.full [num_single_hand_points; 3] nan))
    ∧ d !! "left_hand_trajectories"
      = Some (tolist (Np.full [num_single_hand_points; 3] nan))
    ∧ d !! "face_trajectories" = Some (tolist (Np.full [num_face_points; 3] nan))
    ∧ d !! "image_size" = Some (PTuple [PInt 640; PInt 480]).
Proof.
  apply (to_serializable_dict_keeps_non_finite_values observation_nothing_detected);
    reflexivity.
Defined.

(** The observation in which nothing was detected has NaN trajectories,
    and [to_serializable_dict] returns them instead of raising. *)
Lemma to_serializable_dict_returns_nan :
  ∃ pose d,
    pose_trajectories observation_nothing_detected = Ok pose
    ∧ Np.has_non_finite pose = true
    ∧ to_serializable_dict observation_nothing_detected = Ok d
    ∧ ¬ raises (to_serializable_dict observation_nothing_detected)
    ∧ d !! "pose_trajectories" = Some (tolist pose).
Proof.
  destruct (to_serializable_dict_ok observation_nothing_detected _ _ _ _
              eq_refl eq_refl eq_refl eq_refl) as (d & Hd & Hpose & _).
  eexists _, d. split; [reflexivity|]. split; [reflexivity|].
  split; [done|]. split; [|done]. rewrite Hd. apply not_raises_Ok.
Qed.

Lemma landmarks_to_array_scales_depth_by_width_witness :
  two_landmarks ≠ []
  ∧ int64 640 ∧ int64 480
  ∧ ∃ a, landmarks_to_array observation_nothing_detected two_landmarks = Ok a
       ∧ Np.shape a = [2; 3]
       ∧ ∀ i lm, two_landmarks !! i = Some lm →
           Np.row a i =
             [(Landmark.x lm * 640)%float;
              (Landmark.y lm * 480)%float;
              (Landmark.z lm * 640)%float].
Proof.
  split; [done|]. split; [unfold int64; lia|]. split; [unfold int64; lia|].
  apply (landmarks_to_array_scales_depth_by_width observation_nothing_detected
           two_landmarks).
  - done.
  - unfold int64. cbn. lia.
  - unfold int64. cbn. lia.
Defined.

End mediapipe_facts.

(** ** BrightestPointRecorder *)

Section brightest_point_facts.
Import BrightestPointRecorder.


Lemma set_item3_point n i v pre done x rest :
  i < n → length done < 3 → length pre = i * 3 →
  Np.set_item3 (Np.mk_ndarray [n; 1; 3] (pre ++ done ++ x :: rest)) i 0 (length done) v
  = Ok (Np.mk_ndarray [n; 1; 3] (pre ++ done ++ v :: rest)).
Proof.
  intros Hi Hk Hpre. unfold Np.set_item3. cbn [Np.shape Np.data].
  rewrite bool_decide_eq_true_2 by lia. do 2 f_equal.
  rewrite !(assoc_L app).
  replace ((i * 1 + 0) * 3 + length done) with (length (pre ++ done) + 0)
    by (rewrite length_app; lia).
  by rewrite insert_app_r.
Qed.

Lemma fill_recorded_objects_spec n objects :
  ∀ i pre, length pre = i * 3 → n = i + length objects →
  fill_recorded_objects i objects
    (Np.mk_ndarray [n; 1; 3] (pre ++ replicate (length objects * 3) 0%float))
  = Ok (Np.mk_ndarray [n; 1; 3] (pre ++ (objects ≫= point))).
Proof.
  induction objects as [|obj objects IH]; intros i pre Hpre Hn.
  - done.
  - cbn [fill_recorded_objects length].
    change (S (length objects) * 3) with (3 + length objects * 3).
    cbn [replicate Nat.add].
    pose proof (set_item3_point n i (pixel_x obj) pre []) as H0.
    pose proof (set_item3_point n i (pixel_y obj) pre [pixel_x obj]) as H1.
    pose proof (set_item3_point n i (depth_z obj) pre [pixel_x obj; pixel_y obj]) as H2.
    cbn [app length] in H0, H1, H2. cbn [length] in Hn.
    rewrite H0 by lia. cbn [mbind result_bind].
    rewrite H1 by lia. cbn [mbind result_bind].
    rewrite H2 by lia. cbn [mbind result_bind].
    rewrite bind_cons.
    specialize (IH (S i) (pre ++ point obj)%list).
    rewrite <- !(assoc_L app) in IH. cbn [point app] in IH |- *.
    apply IH; [rewrite length_app; cbn; lia | lia].
Qed.

Lemma process_tracked_objects_run (self : BrightestPointRecorder.t) :
  let a := Np.mk_ndarray [length (recorded_objects self); 1; 3]
             (recorded_objects self ≫= point) in
  process_tracked_objects self = Ok (mk (recorded_objects self) (Some a), a).
Proof.
  intros a. unfold process_tracked_objects, Np.zeros, Np.full.
  replace (Np.size_of [length (recorded_objects self); 1; 3])
    with (length (recorded_objects self) * 3)
    by (unfold Np.size_of; cbn [foldr]; lia).
  pose proof (fill_recorded_objects_spec (length (recorded_objects self))
                (recorded_objects self) 0 []) as H.
  cbn [app] in H. rewrite H by done. done.
Qed.

(** C9: for every state of the recorder (any sequence of recorded objects,
    the empty one included), [process_tracked_objects] returns an array of
    shape (number of recorded objects, 1, 3) whose frame i holds
    (pixel_x, pixel_y, depth_z) of the i-th recorded object, and a second
    call with no [record] in between returns the identical array. *)
Theorem process_tracked_objects_idempotent (self : BrightestPointRecorder.t) :
  ∃ a self1,
    process_tracked_objects self = Ok (self1, a)
    ∧ (∃ self2, process_tracked_objects self1 = Ok (self2, a))
    ∧ Np.shape a = [length (recorded_objects self); 1; 3]
    ∧ Np.wf a
    ∧ ∀ i obj, recorded_objects self !! i = Some obj →
        Np.frame a i = [pixel_x obj; pixel_y obj; depth_z obj].
Proof.
  eexists _, _. split; [apply process_tracked_objects_run|]. split.
  { eexists. rewrite process_tracked_objects_run. cbn [recorded_objects]. reflexivity. }
  split; [done|]. split.
  { unfold Np.wf, Np.size_of. cbn [Np.data Np.shape foldr].
    rewrite (bind_length_const point 3) by done. lia. }
  intros i obj Hi. unfold Np.frame, Np.frame_size, Np.size_of.
  cbn [Np.shape Np.data tl foldr]. change (1 * (3 * 1)) with 3.
  by rewrite (bind_slice point 3 _ i obj).
Qed.

End brightest_point_facts.

(** ** The batch orchestrator *)

Section maps.
Context {A B : Type} (f : A → result B).

Lemma sequential_map_Ok (tasks : list A) (bs : list B) :
  sequential_map f tasks = Ok bs ↔ f <$> tasks = Ok <$> bs.
Proof.
  revert bs. induction tasks as [|t tasks IH]; intros bs; cbn [sequential_map].
  - split; [intros [= <-]; done|]. by destruct bs.
  - rewrite fmap_cons. destruct (f t) as [b|e]; cbn [mbind result_bind].
    + destruct (sequential_map f tasks) as [bs'|e]; cbn [mbind result_bind].
      * split.
        -- intros [= <-]. rewrite fmap_cons. f_equal. by apply IH.
        -- destruct bs as [|b0 bs]; [done|]. rewrite fmap_cons. intros [= <- H].
           apply IH in H. by injection H as ->.
      * split; [done|]. destruct bs as [|b0 bs]; [done|]. rewrite fmap_cons.
        intros [= <- H]. by apply IH in H.
    + split; [done|]. destruct bs as [|b0 bs]; [done|]. by rewrite fmap_cons.
Qed.

Lemma store_result_length tasks slots i :
  length (store_result f tasks slots i) = length slots.
Proof. unfold store_result. destruct (tasks !! i); [apply length_insert|done]. Qed.

Lemma foldl_store_length tasks schedule : ∀ slots,
  length (foldl (store_result f tasks) slots schedule) = length slots.
Proof.
  induction schedule as [|j schedule IH]; intros slots; [done|].
  cbn [foldl]. by rewrite IH, store_result_length.
Qed.

Lemma foldl_store_lookup tasks schedule slots i t :
  length slots = length tasks → tasks !! i = Some t → i ∈ schedule →
  foldl (store_result f tasks) slots schedule !! i = Some (Some (f t)).
Proof.
  intros Hlen Hi. induction schedule as [|j schedule IH] using rev_ind; [by intros ?%elem_of_nil|].
  rewrite foldl_app. cbn [foldl]. intros Hin.
  unfold store_result at 1. destruct (decide (i = j)) as [<-|Hne].
  - rewrite Hi. apply list_lookup_insert_eq.
    rewrite foldl_store_length, Hlen. by eapply lookup_lt_Some.
  - assert (i ∈ schedule) as Hin'.
    { apply elem_of_app in Hin as [?|Hin]; [done|]. by apply list_elem_of_singleton in Hin. }
    destruct (tasks !! j).
    + rewrite list_lookup_insert_ne by done. by apply IH.
    + by apply IH.
Qed.

Lemma slots_complete tasks schedule :
  schedule ≡ₚ seq 0 (length tasks) →
  foldl (store_result f tasks) (replicate (length tasks) None) schedule
  = (fun t => Some (f t)) <$> tasks.
Proof.
  intros Hperm. apply list_eq. intros i. rewrite list_lookup_fmap.
  destruct (tasks !! i) as [t|] eqn:Hi; cbn [fmap option_fmap option_map].
  - apply foldl_store_lookup; [by rewrite length_replicate|done|].
    rewrite Hperm. apply elem_of_seq. apply lookup_lt_Some in Hi. lia.
  - apply lookup_ge_None. rewrite foldl_store_length, length_replicate.
    by apply lookup_ge_None.
Qed.

Lemma collect_values (tasks : list A) (bs : list B) :
  f <$> tasks = Ok <$> bs → omap value_of ((fun t => Some (f t)) <$> tasks) = bs.
Proof.
  revert bs. induction tasks as [|t tasks IH]; intros [|b bs]; try done.
  rewrite !fmap_cons. intros [= Ht H]. cbn [omap list_omap value_of].
  rewrite Ht. cbn. f_equal. by apply IH.
Qed.

Lemma no_failure (tasks : list A) (schedule : list nat) :
  omap failure_of ((fun i => f <$> tasks !! i) <$> schedule) = []
  ↔ ∀ i t, i ∈ schedule → tasks !! i = Some t → ¬ raises (f t).
Proof.
  induction schedule as [|j schedule IH]; [split; [intros _ ??; by intros ?%elem_of_nil|done]|].
  rewrite fmap_cons. cbn [omap list_omap].
  destruct (tasks !! j) as [t|] eqn:Hj; cbn [fmap option_fmap option_map failure_of].
  - destruct (f t) as [b|e] eqn:Hf.
    + rewrite IH. split.
      * intros H i t' [->|Hin]%elem_of_cons Hi; [|by eapply H].
        rewrite Hj in Hi. injection Hi as <-. rewrite Hf. apply not_raises_Ok.
      * intros H i t' Hin. apply H. apply elem_of_cons. by right.
    + split; [done|]. intros H. exfalso. apply (H j t); [apply elem_of_cons; by left|done|]. by rewrite Hf.
  - rewrite IH. split.
    + intros H i t' [->|Hin]%elem_of_cons Hi; [congruence|by eapply H].
    + intros H i t' Hin. apply H. apply elem_of_cons. by right.
Qed.

Lemma results_all_Ok (tasks : list A) (bs : list B) :
  f <$> tasks = Ok <$> bs → ∀ i t, tasks !! i = Some t → ¬ raises (f t).
Proof.
  intros H i t Hi. assert (Hl : (f <$> tasks) !! i = Some (f t)) by by rewrite list_lookup_fmap, Hi.
  rewrite H, list_lookup_fmap in Hl. destruct (bs !! i); [|done].
  injection Hl as <-. apply not_raises_Ok.
Qed.

Lemma values_collect (tasks : list A) :
  (∀ i t, tasks !! i = Some t → ¬ raises (f t)) →
  f <$> tasks = Ok <$> omap value_of ((fun t => Some (f t)) <$> tasks).
Proof.
  induction tasks as [|t tasks IH]; intros Hall; [done|].
  rewrite !fmap_cons. cbn [omap list_omap value_of].
  pose proof (Hall 0 t eq_refl) as Ht. destruct (f t) as [b|e]; [|by destruct Ht].
  rewrite fmap_cons. f_equal. apply IH. intros i t' Hi. by apply (Hall (S i)).
Qed.

Lemma starmap_Ok (tasks : list A) (schedule : list nat) (bs : list B) :
  schedule ≡ₚ seq 0 (length tasks) →
  starmap schedule f tasks = Ok bs ↔ f <$> tasks = Ok <$> bs.
Proof.
  intros Hperm. unfold starmap. rewrite (slots_complete _ _ Hperm).
  destruct (omap failure_of _) as [|e es] eqn:Hfail; cbn [head].
  - rewrite no_failure in Hfail. split.
    + intros [= <-]. apply values_collect. intros i t Hi. apply (Hfail i t); [|done].
      rewrite Hperm. apply elem_of_seq. apply lookup_lt_Some in Hi. lia.
    + intros H. f_equal. by apply collect_values.
  - split; [done|]. intros H. exfalso.
    assert (omap failure_of ((fun i => f <$> tasks !! i) <$> schedule) = []) as Hnil.
    { apply no_failure. intros i t _ Hi. by eapply results_all_Ok. }
    congruence.
Qed.

Lemma starmap_no_tasks schedule : starmap schedule f [] = Ok [].
Proof.
  unfold starmap. cbn [length replicate].
  assert (Hc : omap failure_of ((fun i => f <$> @nil A !! i) <$> schedule) = []).
  { apply no_failure. intros i t _ Hi. by rewrite lookup_nil in Hi. }
  rewrite Hc. cbn [head]. f_equal.
  assert (Hs : foldl (store_result f []) [] schedule = []).
  { apply length_zero_iff_nil. by rewrite foldl_store_length. }
  by rewrite Hs.
Qed.

Lemma gather_Ok (tasks : list A) (schedule : list nat) (parallel : bool) (bs : list B) :
  schedule ≡ₚ seq 0 (length tasks) →
  (if parallel then starmap schedule f tasks else sequential_map f tasks) = Ok bs
  ↔ f <$> tasks = Ok <$> bs.
Proof.
  intros Hperm. destruct parallel; [by apply starmap_Ok|apply sequential_map_Ok].
Qed.
End maps.

(** * np.stack *)

Lemma stack_same_shape (l : list Np.ndarray) sh :
  l ≠ [] → Forall (fun a => Np.shape a = sh) l →
  Np.stack l = Ok (Np.mk_ndarray (length l :: sh) (concat (Np.data <$> l))).
Proof.
  intros Hne Hall. destruct l as [|a rest]; [done|]. unfold Np.stack.
  apply Forall_cons in Hall as [Ha Hrest]. rewrite Ha.
  rewrite (proj2 (forallb_forall _ _)); [done|].
  intros b Hb. apply bool_decide_eq_true_2.
  rewrite Forall_forall in Hrest. apply Hrest. by apply list_elem_of_In.
Qed.

Lemma stack_Ok (l : list Np.ndarray) c :
  Np.stack l = Ok c →
  ∃ sh, l ≠ [] ∧ Forall (fun a => Np.shape a = sh) l
        ∧ c = Np.mk_ndarray (length l :: sh) (concat (Np.data <$> l)).
Proof.
  destruct l as [|a rest]; [done|]. unfold Np.stack.
  destruct (forallb _ rest) eqn:Hall; [|done]. intros [= <-].
  exists (Np.shape a). split; [done|]. split; [|done].
  apply Forall_cons. split; [done|]. apply Forall_forall. intros b Hb.
  rewrite forallb_forall in Hall. apply list_elem_of_In in Hb.
  specialize (Hall b Hb). by apply bool_decide_eq_true_1 in Hall.
Qed.

Lemma stack_mismatch (l : list Np.ndarray) i j a b :
  l !! i = Some a → l !! j = Some b → Np.shape a ≠ Np.shape b → raises (Np.stack l).
Proof.
  intros Hi Hj Hne. destruct (Np.stack l) as [c|e] eqn:Hs; [|done].
  apply stack_Ok in Hs as (sh & _ & Hall & _). rewrite Forall_lookup in Hall.
  destruct Hne. by rewrite (Hall i a Hi), (Hall j b Hj).
Qed.


(** * process_folder_of_videos *)

Lemma get_tracker_known tracker_name params t :
  get_tracker tracker_name params = Ok t →
  is_Some (file_name_dictionary !! tracker_name).
Proof.
  unfold get_tracker.
  destruct (String.eqb_spec tracker_name "MediapipeHolisticTracker") as [->|_]; [by eexists|].
  destruct (String.eqb_spec tracker_name "YOLOMediapipeComboTracker") as [->|_]; [by eexists|].
  destruct (String.eqb_spec tracker_name "YOLOPoseTracker") as [->|_]; [by eexists|].
  destruct (String.eqb_spec tracker_name "BrightestPointTracker") as [->|_]; [by eexists|].
  done.
Qed.

Section batch_facts.
Variable stem : string → string.
Variable process_video : tracker → path → path → result Np.ndarray.

Lemma process_single_video_known t a :
  process_single_video stem process_video t = Ok a →
  is_Some (file_name_dictionary !! task_tracker_name t).
Proof.
  unfold process_single_video.
  destruct (get_tracker _ _) as [tr|e] eqn:Ht; [|done]. intros _.
  by eapply get_tracker_known.
Qed.

(** When the function returns: the tracker is a known one, every video was
    processed, and the per-video arrays, in the order of discovery, could be
    stacked. *)
Lemma process_folder_of_videos_Ok env tracker_name params synchronized_video_path
    output_path annotated_video_path num_processes r :
  schedule env ≡ₚ seq 0 (length (videos env)) →
  process_folder_of_videos stem process_video env tracker_name params
    synchronized_video_path output_path annotated_video_path num_processes = Ok r
  ↔ ∃ file_name arrays combined,
      file_name_dictionary !! tracker_name = Some file_name
      ∧ process_single_video stem process_video
          <$> make_tasks env tracker_name params
                (resolve_annotated_video_path synchronized_video_path annotated_video_path)
        = Ok <$> arrays
      ∧ Np.stack arrays = Ok combined
      ∧ r = (combined,
             (npy_path (resolve_output_path synchronized_video_path output_path file_name),
              combined)).
Proof.
  intros Hperm. unfold process_folder_of_videos, getitem.
  set (tasks := make_tasks _ _ _ _).
  assert (Hlen : schedule env ≡ₚ seq 0 (length tasks)).
  { unfold tasks, make_tasks. by rewrite length_fmap. }
  destruct (file_name_dictionary !! tracker_name) as [file_name|]; cbn [mbind result_bind].
  2:{ split; [done|]. by intros (? & ? & ? & [=] & _). }
  set (parallel := bool_decide _).
  pose proof (gather_Ok (process_single_video stem process_video) tasks
                (schedule env) parallel) as Hg.
  destruct (if parallel then _ else _) as [bs|e]; cbn [mbind result_bind].
  - destruct (Np.stack bs) as [c|e] eqn:Hs; cbn [mbind result_bind].
    + split.
      * intros [= <-]. exists file_name, bs, c. repeat split; try done. by apply Hg.
      * intros (fn & arrays & c' & [= <-] & Hr & Hs' & ->).
        apply Hg in Hr; [|done]. injection Hr as <-. rewrite Hs in Hs'. by injection Hs' as <-.
    + split; [done|]. intros (fn & arrays & c' & _ & Hr & Hs' & _).
      apply Hg in Hr; [|done]. injection Hr as <-. by rewrite Hs in Hs'.
  - split; [done|]. intros (fn & arrays & c' & _ & Hr & _).
    apply Hg in Hr; [|done]. done.
Qed.
End batch_facts.

Section batch_claims.
Variable stem : string → string.
Variable process_video : tracker → path → path → result Np.ndarray.

(** C3: let [arrays] be the per-video arrays, in the order of discovery.
    If two of them differ in shape (number of frames or of tracked points)
    [process_folder_of_videos] raises.  If there is at least one and all
    have the shape (num_frames, num_tracked_points, 3), it returns the
    combined array of shape (num_cameras, num_frames, num_tracked_points, 3)
    and saves that same array; its elements are those of the per-video
    arrays one after the other, so that the block of camera i is the i-th
    per-video array, neither truncated nor padded. *)
Theorem stacking_fails_on_shape_mismatch env tracker_name params
    synchronized_video_path output_path annotated_video_path num_processes
    (arrays : list Np.ndarray) :
  schedule env ≡ₚ seq 0 (length (videos env)) →
  process_single_video stem process_video
    <$> make_tasks env tracker_name params
          (resolve_annotated_video_path synchronized_video_path annotated_video_path)
  = Ok <$> arrays →
  ((∃ i j a b, arrays !! i = Some a ∧ arrays !! j = Some b ∧ Np.shape a ≠ Np.shape b) →
   raises (process_folder_of_videos stem process_video env tracker_name params
             synchronized_video_path output_path annotated_video_path num_processes))
  ∧ (∀ num_frames num_tracked_points,
       arrays ≠ [] →
       Forall (fun a => Np.shape a = [num_frames; num_tracked_points; 3]) arrays →
       ∃ file_name combined,
         file_name_dictionary !! tracker_name = Some file_name
         ∧ process_folder_of_videos stem process_video env tracker_name params
             synchronized_video_path output_path annotated_video_path num_processes
           = Ok (combined,
                 (npy_path (resolve_output_path synchronized_video_path output_path file_name),
                  combined))
         ∧ Np.shape combined = [length (videos env); num_frames; num_tracked_points; 3]
         ∧ Np.data combined = concat (Np.data <$> arrays)
         ∧ (Forall Np.wf arrays →
            ∀ i a, arrays !! i = Some a → Np.frame combined i = Np.data a)).
Proof.
  intros Hperm Hres. split.
  - intros (i & j & a & b & Hi & Hj & Hne). apply raises_not_Ok. intros r Hr.
    apply process_folder_of_videos_Ok in Hr as (fn & arrays' & c & _ & Hres' & Hs & _);
      [|done].
    rewrite Hres in Hres'. apply (inj _) in Hres' as <-.
    pose proof (stack_mismatch arrays i j a b Hi Hj Hne) as Hraise. by rewrite Hs in Hraise.
  - intros nf np Hne Hshapes.
    assert (Hlen : length arrays = length (videos env)).
    { apply (f_equal length) in Hres. unfold make_tasks in Hres.
      by rewrite !length_fmap in Hres. }
    assert (is_Some (file_name_dictionary !! tracker_name)) as [file_name Hfn].
    { destruct arrays as [|a arrays]; [done|].
      unfold make_tasks in Hres. destruct (videos env) as [|v vs]; [done|].
      rewrite !fmap_cons in Hres. injection Hres as Ha _.
      by apply process_single_video_known in Ha. }
    pose proof (stack_same_shape arrays _ Hne Hshapes) as Hs.
    eexists file_name, _. split; [done|]. split.
    { apply process_folder_of_videos_Ok; [done|]. by eexists _, _, _. }
    cbn [Np.shape Np.data]. rewrite Hlen. split; [done|]. split; [done|].
    intros Hwf i a Hi. unfold Np.frame, Np.frame_size. cbn [Np.shape Np.data tl].
    apply concat_slice; [|by rewrite list_lookup_fmap, Hi].
    apply Forall_fmap. apply Forall_forall. intros b Hb. cbn.
    rewrite Forall_forall in Hwf, Hshapes.
    specialize (Hwf b Hb). unfold Np.wf in Hwf. by rewrite Hwf, (Hshapes b Hb).
Qed.

(** C4: for every input directory and tracker configuration, the run with
    [num_processes <= 1] (sequential loop) and the run with
    [num_processes > 1] (worker pool, whatever the order in which the
    workers complete the tasks) return the same combined array and save the
    same file, or both raise.  When every discovered video is processed
    into an array and the arrays have one shape, both runs do return: the
    combined array holds the per-video arrays one after the other in the
    order in which the videos were discovered, and it is the array saved.
    Conversely a returned array is the stack of the per-video arrays in
    that order. *)
Theorem sequential_and_pool_runs_agree env tracker_name params
    synchronized_video_path output_path annotated_video_path (n_sequential n_pool : Z) :
  schedule env ≡ₚ seq 0 (length (videos env)) →
  (n_sequential ≤ 1)%Z → (1 < n_pool)%Z →
  ((∀ r,
      process_folder_of_videos stem process_video env tracker_name params
        synchronized_video_path output_path annotated_video_path (Some n_sequential) = Ok r
      ↔ process_folder_of_videos stem process_video env tracker_name params
          synchronized_video_path output_path annotated_video_path (Some n_pool) = Ok r)
   ∧ (raises (process_folder_of_videos stem process_video env tracker_name params
                synchronized_video_path output_path annotated_video_path
                (Some n_sequential))
      ↔ raises (process_folder_of_videos stem process_video env tracker_name params
                  synchronized_video_path output_path annotated_video_path
                  (Some n_pool))))
  ∧ (∀ (arrays : list Np.ndarray) (sh : list nat),
       Forall2 (fun video a =>
                  process_single_video stem process_video
                    (mk_task tracker_name params video
                       (resolve_annotated_video_path synchronized_video_path
                          annotated_video_path)) = Ok a)
         (videos env) arrays →
       arrays ≠ [] →
       Forall (fun a => Np.shape a = sh) arrays →
       ∃ file_name,
         file_name_dictionary !! tracker_name = Some file_name
         ∧ let combined :=
             Np.mk_ndarray (length (videos env) :: sh) (concat (Np.data <$> arrays)) in
           let returned :=
             (combined,
              (npy_path (resolve_output_path synchronized_video_path output_path file_name),
               combined)) in
           process_folder_of_videos stem process_video env tracker_name params
             synchronized_video_path output_path annotated_video_path (Some n_sequential)
           = Ok returned
           ∧ process_folder_of_videos stem process_video env tracker_name params
               synchronized_video_path output_path annotated_video_path (Some n_pool)
             = Ok returned)
  ∧ (∀ combined saved,
       process_folder_of_videos stem process_video env tracker_name params
         synchronized_video_path output_path annotated_video_path (Some n_pool)
       = Ok (combined, saved) →
       ∃ arrays,
         Forall2 (fun video a =>
                    process_single_video stem process_video
                      (mk_task tracker_name params video
                         (resolve_annotated_video_path synchronized_video_path
                            annotated_video_path)) = Ok a)
           (videos env) arrays
         ∧ Np.stack arrays = Ok combined).
Proof.
  intros Hperm Hseq Hpool.
  assert (Hagree : ∀ r,
    process_folder_of_videos stem process_video env tracker_name params
      synchronized_video_path output_path annotated_video_path (Some n_sequential) = Ok r
    ↔ process_folder_of_videos stem process_video env tracker_name params
        synchronized_video_path output_path annotated_video_path (Some n_pool) = Ok r).
  { intros r. by rewrite !process_folder_of_videos_Ok. }
  split; [split; [done|]|split].
  - rewrite !raises_not_Ok. split; intros H r Hr; apply (H r); by apply Hagree.
  - intros arrays sh Hall Hne Hshapes.
    assert (Hlen : length (videos env) = length arrays) by by eapply Forall2_length.
    assert (is_Some (file_name_dictionary !! tracker_name)) as [file_name Hfn].
    { destruct Hall as [|video a videos arrays Ha _]; [done|].
      by apply process_single_video_known in Ha. }
    exists file_name. split; [done|]. cbv zeta.
    assert (Hres : process_single_video stem process_video
                     <$> make_tasks env tracker_name params
                           (resolve_annotated_video_path synchronized_video_path
                              annotated_video_path)
                   = Ok <$> arrays).
    { unfold make_tasks. clear -Hall.
      induction Hall as [|video a videos arrays Ha _ IH]; [done|].
      by rewrite !fmap_cons, Ha, IH. }
    pose proof (stack_same_shape arrays sh Hne Hshapes) as Hs. rewrite <- Hlen in Hs.
    split; (apply process_folder_of_videos_Ok; [done|]; by eexists _, _, _).
  - intros combined saved Hr.
    apply process_folder_of_videos_Ok in Hr as (fn & arrays & c & _ & Hres & Hs & [= <- _]);
      [|done].
    exists arrays. split; [|done]. unfold make_tasks in Hres.
    revert Hres. generalize (videos env). clear. intros vs. revert arrays.
    induction vs as [|v vs IH]; intros [|a arrays]; try done.
    rewrite !fmap_cons. intros [= Ha Hrest]. constructor; [done|by apply IH].
Qed.

(** C10: when the input directory holds no .mp4 file,
    [process_folder_of_videos] raises (from [np.stack] on the empty list at
    the latest), whatever [num_processes] is; nothing is returned or
    saved. *)
Theorem no_videos_raises env tracker_name params synchronized_video_path
    output_path annotated_video_path num_processes :
  videos env = [] →
  raises (process_folder_of_videos stem process_video env tracker_name params
            synchronized_video_path output_path annotated_video_path num_processes).
Proof.
  intros Hv. unfold process_folder_of_videos, make_tasks, getitem. rewrite Hv.
  destruct (file_name_dictionary !! tracker_name); [|done]. cbn [mbind result_bind fmap list_fmap].
  rewrite starmap_no_tasks. cbn [sequential_map].
  by destruct (bool_decide _).
Qed.

End batch_claims.

(** C5 (as amended): the default of [num_processes] is the minimum of
    [cpu_count() - 1] and the number of discovered videos: it is at most
    each of the two, and it is at least 1 exactly when there are at least
    two cores and at least one video. *)
Theorem default_num_processes_bounds (cpu_count : Z) (videos : list path) :
  (default_num_processes cpu_count videos ≤ cpu_count - 1)%Z
  ∧ (default_num_processes cpu_count videos ≤ Z.of_nat (length videos))%Z
  ∧ ((1 ≤ default_num_processes cpu_count videos)%Z
     ↔ (2 ≤ cpu_count)%Z ∧ (1 ≤ length videos)%nat).
Proof. unfold default_num_processes. lia. Qed.

(** On a single core the default is 0. *)
Lemma default_num_processes_single_core :
  ¬ (1 ≤ default_num_processes 1 [["videos"; "cam0.mp4"]; ["videos"; "cam1.mp4"]])%Z.
Proof. vm_compute. by intros H; apply H. Qed.

Lemma two_cameras_schedule :
  schedule two_cameras ≡ₚ seq 0 (length (videos two_cameras)).
Proof. apply perm_swap. Qed.

Lemma stacking_fails_on_shape_mismatch_witness :
  let arrays := [Np.zeros [2; 1; 3]; Np.zeros [2; 1; 3]] in
  let run := process_folder_of_videos (fun s => s) two_frame_video two_cameras
               "BrightestPointTracker" default_params ["session"; "synchronized_videos"]
               None None None in
  ((∃ i j a b, arrays !! i = Some a ∧ arrays !! j = Some b ∧ Np.shape a ≠ Np.shape b) →
   raises run)
  ∧ (∀ num_frames num_tracked_points,
       arrays ≠ [] →
       Forall (fun a => Np.shape a = [num_frames; num_tracked_points; 3]) arrays →
       ∃ file_name combined,
         file_name_dictionary !! "BrightestPointTracker" = Some file_name
         ∧ run = Ok (combined,
                     (npy_path (resolve_output_path ["session"; "synchronized_videos"]
                                  None file_name),
                      combined))
         ∧ Np.shape combined = [2; num_frames; num_tracked_points; 3]
         ∧ Np.data combined = concat (Np.data <$> arrays)
         ∧ (Forall Np.wf arrays →
            ∀ i a, arrays !! i = Some a → Np.frame combined i = Np.data a)).
Proof.
  apply (stacking_fails_on_shape_mismatch (fun s => s) two_frame_video two_cameras
           "BrightestPointTracker" default_params ["session"; "synchronized_videos"]
           None None None [Np.zeros [2; 1; 3]; Np.zeros [2; 1; 3]]).
  - apply two_cameras_schedule.
  - reflexivity.
Defined.

Lemma sequential_and_pool_runs_agree_witness :
  let run := process_folder_of_videos (fun s => s) video_by_camera two_cameras
               "BrightestPointTracker" default_params ["session"; "synchronized_videos"]
               None None in
  let combined :=
    Np.mk_ndarray [2; 2; 1; 3]
      [0; 0; 0; 0; 0; 0; 1; 1; 1; 1; 1; 1]%float in
  ∃ file_name,
    file_name_dictionary !! "BrightestPointTracker" = Some file_name
    ∧ run (Some 1%Z)
      = Ok (combined,
            (npy_path (resolve_output_path ["session"; "synchronized_videos"] None
                         file_name),
             combined))
    ∧ run (Some 4%Z)
      = Ok (combined,
            (npy_path (resolve_output_path ["session"; "synchronized_videos"] None
                         file_name),
             combined)).
Proof.
  pose proof (sequential_and_pool_runs_agree (fun s => s) video_by_camera two_cameras
                "BrightestPointTracker" default_params ["session"; "synchronized_videos"]
                None None 1%Z 4%Z two_cameras_schedule ltac:(lia) ltac:(lia))
    as (_ & Hreturn & _).
  apply (Hreturn [Np.zeros [2; 1; 3]; Np.full [2; 1; 3] 1%float] [2; 1; 3]).
  - repeat constructor.
  - done.
  - repeat constructor.
Defined.

Lemma no_videos_raises_witness :
  videos no_cameras = []
  ∧ raises (process_folder_of_videos (fun s => s) two_frame_video no_cameras
              "BrightestPointTracker" default_params ["session"; "synchronized_videos"]
              None None None).
Proof.
  split; [reflexivity|].
  apply (no_videos_raises (fun s => s) two_frame_video no_cameras). reflexivity.
Defined.

(** ** OpenPoseRecorder *)

Section openpose_facts.
Import OpenPoseRecorder.


Lemma set_rows_shape lo hi a src a' :
  Np.set_rows lo hi a src = Ok a' → Np.shape a' = Np.shape a.
Proof.
  unfold Np.set_rows. destruct (Np.broadcast2 _ _ _); cbn [mbind result_bind]; [|done].
  by intros [= <-].
Qed.


Lemma extract_keypoints_shape info person_data keypoints :
  extract_keypoints info person_data = Ok keypoints →
  Np.shape keypoints = [all_markers info; 3].
Proof.
  unfold extract_keypoints, all_markers.
  set (k0 := Np.full _ nan).
  assert (H0 : Np.shape k0 = [num_tracked_points info + 2 * hand_markers info + face_markers info; 3]) by done.
  generalize dependent k0. intros k0 H0 H.
  apply bind_Ok in H as (k1 & H1 & H).
  assert (Hs1 : Np.shape k1 = Np.shape k0).
  { destruct (contains person_data "pose_keypoints_2d"); [|by injection H1 as <-].
    apply bind_Ok in H1 as (? & _ & H1). apply bind_Ok in H1 as (? & _ & H1).
    by apply set_rows_shape in H1. }
  apply bind_Ok in H as (k2 & H2 & H).
  assert (Hs2 : Np.shape k2 = Np.shape k1).
  { destruct (_ && _); [|by injection H2 as <-].
    apply bind_Ok in H2 as (? & _ & H2). apply bind_Ok in H2 as (? & _ & H2).
    apply bind_Ok in H2 as (k' & Hk' & H2). apply set_rows_shape in Hk'.
    apply bind_Ok in H2 as (? & _ & H2). apply bind_Ok in H2 as (? & _ & H2).
    apply set_rows_shape in H2. congruence. }
  assert (Hs3 : Np.shape keypoints = Np.shape k2).
  { destruct (contains person_data "face_keypoints_2d"); [|by injection H as <-].
    apply bind_Ok in H as (? & _ & H). apply bind_Ok in H as (? & _ & H).
    by apply set_rows_shape in H. }
  congruence.
Qed.

Lemma broadcast2_mismatch src r rows cols :
  Np.shape src = [r; cols] → r ≠ rows → r ≠ 1 → raises (Np.broadcast2 src rows cols).
Proof.
  intros Hs Hr H1. unfold Np.broadcast2. rewrite Hs.
  rewrite (bool_decide_eq_true_2 (cols = cols)) by done. cbn [mbind result_bind].
  rewrite (bool_decide_eq_false_2 (r = rows)) by done.
  rewrite (bool_decide_eq_false_2 (r = 1)) by done. exact I.
Qed.


Lemma process_files_mismatch info frame_indices files : ∀ file_index data_array n m,
  Np.shape data_array = [n; m; 3] → all_markers info ≠ m → all_markers info ≠ 1 →
  (∃ file people, file ∈ files ∧ content file !! "people" = Some people ∧ people ≠ []) →
  raises (process_files info frame_indices file_index files data_array).
Proof.
  induction files as [|file files IH]; intros file_index data_array n m Hs Hm H1 Hex.
  { destruct Hex as (? & ? & []%elem_of_nil & _). }
  cbn [process_files]. unfold getitem.
  destruct (content file !! "people") as [people|] eqn:Hp; cbn [mbind result_bind]; [|done].
  destruct people as [|first_person people].
  - cbn [mbind result_bind]. eapply IH; try done.
    destruct Hex as (f & ps & Hin & Hps & Hne). exists f, ps. split; [|done].
    apply elem_of_cons in Hin as [->|Hin]; [|done]. congruence.
  - apply raises_bind.
    destruct (extract_keypoints info first_person) as [keypoints|e] eqn:Hk;
      cbn [mbind result_bind]; [|done].
    apply extract_keypoints_shape in Hk.
    destruct (frame_indices !! file_index) as [[i|]|]; [| |done].
    + unfold Np.set_frame. rewrite Hs. destruct (Np.norm_index n i); [|done].
      by apply raises_bind, (broadcast2_mismatch _ (all_markers info)).
    + unfold Np.set_newaxis. rewrite Hs.
      by apply raises_bind, (broadcast2_mismatch _ (all_markers info)).
Qed.

(** C7 (the defect): [extract_keypoints] always builds the array of all
    regions, and [parse_openpose_jsons] assigns it to a frame sized to the
    enabled regions.  So when a region with markers is disabled, parsing a
    directory in which some file reports a person raises instead of
    succeeding. *)
Theorem parse_openpose_jsons_disabled_region_raises info (self : OpenPoseRecorder.t)
    (files : list json_file) :
  num_markers info self ≠ all_markers info → all_markers info ≠ 1 →
  (∃ file people, file ∈ files ∧ content file !! "people" = Some people ∧ people ≠ []) →
  raises (parse_openpose_jsons info self files).
Proof.
  intros Hm H1 Hex. unfold parse_openpose_jsons.
  destruct (sort_frame_indices _) as [frame_indices|e]; cbn [mbind result_bind]; [|done].
  eapply process_files_mismatch; try done.
Qed.

Lemma parse_openpose_jsons_disabled_region_raises_witness :
  raises (parse_openpose_jsons body25_info (OpenPoseRecorder.mk false false)
            [frame_0_with_person]).
Proof.
  apply (parse_openpose_jsons_disabled_region_raises body25_info
           (OpenPoseRecorder.mk false false) [frame_0_with_person]).
  - vm_compute. lia.
  - vm_compute. lia.
  - exists frame_0_with_person, [body_only_person].
    split; [apply list_elem_of_singleton; reflexivity|]. split; [reflexivity|done].
Defined.

(** C2 (the defect): the files are discovered in the order frame 1,
    frame 0; hands and face are tracked.  The file of frame 1 reports a
    person and the file of frame 0 reports nobody, yet the keypoints of the
    file of frame 1 are in row 0 of the result and row 1, the row of its
    own frame index, is entirely NaN. *)
Theorem parse_openpose_jsons_rows_follow_discovery_order :
  ∃ a keypoints,
    parse_openpose_jsons body25_info (OpenPoseRecorder.mk true true)
      [frame_1_with_person; frame_0_without_people] = Ok a
    ∧ extract_frame_index (name frame_1_with_person) = Some 1%Z
    ∧ extract_frame_index (name frame_0_without_people) = Some 0%Z
    ∧ extract_keypoints body25_info body_only_person = Ok keypoints
    ∧ Np.shape a = [2; 137; 3]
    ∧ Np.frame a 0 = Np.data keypoints
    ∧ Np.frame a 1 = replicate (137 * 3) nan
    ∧ Np.frame a 1 ≠ Np.data keypoints.
Proof.
  eexists _, _. split; [vm_compute; reflexivity|].
  split; [reflexivity|]. split; [reflexivity|].
  split; [vm_compute; reflexivity|].
  split; [reflexivity|]. split; [reflexivity|]. split; [reflexivity|].
  intros H. apply (f_equal (fun l => PrimFloat.is_nan (hd 0%float l))) in H.
  vm_compute in H. discriminate.
Qed.

End openpose_facts.

(** * Further properties *)

Open Scope list_scope.
Open Scope nat_scope.

(** ** Replacing a slice *)

Lemma splice_length lo len (new l : list float) :
  length new = len → lo + len ≤ length l → length (Np.splice lo len new l) = length l.
Proof.
  intros Hn Hl. unfold Np.splice.
  rewrite !length_app, length_take, length_drop. lia.
Qed.

Lemma splice_lookup lo len (new l : list float) p :
  length new = len → lo + len ≤ length l →
  Np.splice lo len new l !! p
  = if decide (lo ≤ p < lo + len) then new !! (p - lo) else l !! p.
Proof.
  intros Hn Hl. unfold Np.splice.
  destruct (decide (p < lo)) as [Hp|Hp].
  - rewrite lookup_app_l by (rewrite length_take; lia).
    rewrite lookup_take_lt by done. by rewrite decide_False by lia.
  - rewrite lookup_app_r by (rewrite length_take; lia).
    rewrite length_take, Nat.min_l by lia.
    destruct (decide (p < lo + len)) as [Hq|Hq].
    + rewrite lookup_app_l by lia. by rewrite decide_True by lia.
    + rewrite lookup_app_r by lia. rewrite lookup_drop, decide_False by lia.
      f_equal. lia.
Qed.

Lemma splice_slice_same k len (new l : list float) :
  length new = len → k * len + len ≤ length l →
  take len (drop (k * len) (Np.splice (k * len) len new l)) = new.
Proof.
  intros Hn Hl. apply list_eq. intros p.
  destruct (decide (p < len)) as [Hp|Hp].
  - rewrite lookup_take_lt, lookup_drop, splice_lookup by done.
    rewrite decide_True by lia. f_equal. lia.
  - rewrite lookup_take_ge by lia. symmetry. apply lookup_ge_None. lia.
Qed.

Lemma splice_slice_other k j len (new l : list float) :
  length new = len → k * len + len ≤ length l → j ≠ k →
  take len (drop (j * len) (Np.splice (k * len) len new l))
  = take len (drop (j * len) l).
Proof.
  intros Hn Hl Hjk. apply list_eq. intros p.
  destruct (decide (p < len)) as [Hp|Hp].
  - rewrite !lookup_take_lt, !lookup_drop, splice_lookup by done.
    rewrite decide_False; [done|]. nia.
  - by rewrite !lookup_take_ge by lia.
Qed.

(** ** Shapes and sizes through the array operations *)

Lemma full_matrix r c v : is_matrix (Np.full [r; c] v) r c.
Proof.
  split; [done|]. unfold Np.full, Np.size_of. cbn [Np.data foldr].
  rewrite length_replicate. lia.
Qed.

Lemma reshape_matrix values src :
  Np.reshape_m1_3 values = Ok src →
  is_matrix src (length values / 3) 3 ∧ Np.data src = values.
Proof.
  unfold Np.reshape_m1_3. case_bool_decide as Hmod; [|done]. intros [= <-].
  split; [|done]. split; [done|]. cbn [Np.data].
  pose proof (Nat.div_mod_eq (length values) 3). lia.
Qed.

Lemma take_rows_matrix n a r c :
  is_matrix a r c → is_matrix (Np.take_rows n a) (n `min` r) c.
Proof.
  intros [Hs Hl]. unfold Np.take_rows, Np.nrows, Np.ncols, Np.dim0. rewrite Hs.
  cbn [hd tl]. split; [done|]. cbn [Np.data]. rewrite length_take. nia.
Qed.

Lemma broadcast2_length src r c rows cols new :
  is_matrix src r c → Np.broadcast2 src rows cols = Ok new → length new = rows * cols.
Proof.
  intros [Hs Hl]. unfold Np.broadcast2. rewrite Hs. intros H.
  apply bind_Ok in H as (d1 & H1 & H).
  assert (Hd1 : length d1 = r * cols).
  { destruct (decide (c = cols)) as [->|Hc].
    { rewrite (bool_decide_eq_true_2 (cols = cols)) in H1 by done. by injection H1 as <-. }
    rewrite (bool_decide_eq_false_2 (c = cols)) in H1 by done.
    destruct (decide (c = 1)) as [->|Hc1].
    2:{ by rewrite (bool_decide_eq_false_2 (c = 1)) in H1 by done. }
    rewrite (bool_decide_eq_true_2 (1 = 1)) in H1 by done. injection H1 as <-.
    rewrite (bind_length_const (replicate cols) cols); [lia|].
    intros. apply length_replicate. }
  destruct (decide (r = rows)) as [->|Hr].
  { rewrite (bool_decide_eq_true_2 (rows = rows)) in H by done. by injection H as <-. }
  rewrite (bool_decide_eq_false_2 (r = rows)) in H by done.
  destruct (decide (r = 1)) as [->|Hr1].
  2:{ by rewrite (bool_decide_eq_false_2 (r = 1)) in H by done. }
  rewrite (bool_decide_eq_true_2 (1 = 1)) in H by done. injection H as <-.
  clear -Hd1. induction rows as [|rows IH]; [done|].
  cbn [replicate concat]. rewrite length_app, IH. lia.
Qed.

Lemma broadcast2_exact src rows cols :
  Np.shape src = [rows; cols] → Np.broadcast2 src rows cols = Ok (Np.data src).
Proof.
  intros Hs. unfold Np.broadcast2. rewrite Hs.
  rewrite (bool_decide_eq_true_2 (cols = cols)) by done. cbn [mbind result_bind].
  by rewrite (bool_decide_eq_true_2 (rows = rows)) by done.
Qed.

Lemma set_rows_matrix lo hi a src a' R C r c :
  is_matrix a R C → is_matrix src r c →
  Np.set_rows lo hi a src = Ok a' → is_matrix a' R C.
Proof.
  intros [Hs Hl] Hsrc. unfold Np.set_rows, Np.nrows, Np.ncols, Np.dim0.
  rewrite Hs. cbn [hd tl]. intros H. apply bind_Ok in H as (new & Hnew & [= <-]).
  split; [done|]. cbn [Np.data].
  apply (broadcast2_length _ _ _ _ _ _ Hsrc) in Hnew.
  rewrite splice_length; [done|done|]. rewrite Hl. nia.
Qed.

Lemma set_rows_reshaped lo hi n a values a' R :
  is_matrix a R 3 →
  (src ← Np.reshape_m1_3 values; Np.set_rows lo hi a (Np.take_rows n src)) = Ok a' →
  is_matrix a' R 3.
Proof.
  intros Ha H. apply bind_Ok in H as (src & Hsrc & H).
  apply reshape_matrix in Hsrc as [Hsrc _].
  eapply set_rows_matrix; [done| |done]. by apply take_rows_matrix.
Qed.

Section openpose_arrays.
Import OpenPoseRecorder.
Variable info : OpenPoseModelInfo.

Lemma extract_keypoints_matrix (person_data : person) keypoints :
  extract_keypoints info person_data = Ok keypoints →
  is_matrix keypoints (all_markers info) 3.
Proof.
  unfold extract_keypoints.
  pose proof (full_matrix
    (num_tracked_points info + 2 * hand_markers info + face_markers info) 3 nan) as H0.
  revert H0. generalize (Np.full
    [num_tracked_points info + 2 * hand_markers info + face_markers info; 3] nan).
  fold (all_markers info). intros k0 H0 H.
  apply bind_Ok in H as (k1 & H1 & H).
  assert (Hk1 : is_matrix k1 (all_markers info) 3).
  { destruct (contains person_data "pose_keypoints_2d"); [|by injection H1 as <-].
    apply bind_Ok in H1 as (? & _ & H1). by eapply set_rows_reshaped. }
  apply bind_Ok in H as (k2 & H2 & H).
  assert (Hk2 : is_matrix k2 (all_markers info) 3).
  { destruct (_ && _); [|by injection H2 as <-].
    apply bind_Ok in H2 as (? & _ & H2). apply bind_Ok in H2 as (src & Hsrc & H2).
    apply bind_Ok in H2 as (k' & Hk' & H2).
    assert (is_matrix k' (all_markers info) 3).
    { eapply set_rows_reshaped; [exact Hk1|]. rewrite Hsrc. exact Hk'. }
    apply bind_Ok in H2 as (? & _ & H2). by eapply set_rows_reshaped. }
  destruct (contains person_data "face_keypoints_2d"); [|by injection H as <-].
  apply bind_Ok in H as (? & _ & H). by eapply set_rows_reshaped.
Qed.

End openpose_arrays.

(** ** OpenPoseRecorder: parsing a directory *)

Section openpose_extras.
Import OpenPoseRecorder.

Lemma frame_size_3d a n m c : Np.shape a = [n; m; c] → Np.frame_size a = m * c.
Proof. intros Hs. unfold Np.frame_size, Np.size_of. rewrite Hs. cbn [tl foldr]. lia. Qed.

Lemma norm_index_nat n k : k < n → Np.norm_index n (Z.of_nat k) = Some k.
Proof.
  intros Hk. unfold Np.norm_index. rewrite bool_decide_eq_true_2 by lia.
  by rewrite Nat2Z.id.
Qed.

Section in_order.
Variable info : OpenPoseModelInfo.
Variable n : nat.

Lemma set_frame_exact arr k keypoints :
  Np.shape arr = [n; all_markers info; 3] → k < n →
  is_matrix keypoints (all_markers info) 3 →
  Np.set_frame arr (Z.of_nat k) keypoints
  = Ok (Np.mk_ndarray (Np.shape arr)
          (Np.splice (k * (all_markers info * 3)) (all_markers info * 3)
             (Np.data keypoints) (Np.data arr))).
Proof.
  intros Hs Hk [Hks _]. unfold Np.set_frame. rewrite Hs, norm_index_nat by done.
  by rewrite broadcast2_exact.
Qed.

Lemma process_files_in_order files rows : ∀ k arr,
  Np.shape arr = [n; all_markers info; 3] →
  length (Np.data arr) = n * (all_markers info * 3) →
  k + length files ≤ n →
  Forall2 (fun file r => file_row info file = Ok r) files rows →
  ∃ a, process_files info (consecutive_indices n) k files arr = Ok a
    ∧ Np.shape a = [n; all_markers info; 3]
    ∧ length (Np.data a) = n * (all_markers info * 3)
    ∧ (∀ j r, rows !! j = Some r →
         Np.frame a (k + j)
         = match r with None => Np.frame arr (k + j) | Some keypoints => Np.data keypoints end)
    ∧ (∀ t, ¬ (k ≤ t < k + length files) → Np.frame a t = Np.frame arr t).
Proof.
  intros k arr Hs Hl Hk Hrows. revert k arr Hs Hl Hk.
  induction Hrows as [|file r files rows Hfile Hrows IH]; intros k arr Hs Hl Hk.
  { exists arr. split; [done|]. split; [done|]. split; [done|].
    split; [intros j r Hj; by rewrite lookup_nil in Hj|done]. }
  cbn [length] in Hk. cbn [process_files].
  unfold file_row in Hfile. apply bind_Ok in Hfile as (people & Hpeople & Hfile).
  rewrite Hpeople. cbn [mbind result_bind].
  destruct people as [|first_person people].
  - injection Hfile as <-. cbn [mbind result_bind].
    destruct (IH (S k) arr Hs Hl ltac:(lia)) as (a & Ha & Hsa & Hla & Hin & Hout).
    exists a. split; [done|]. split; [done|]. split; [done|]. split.
    + intros [|j] r' Hj.
      * injection Hj as <-. rewrite Nat.add_0_r. apply Hout. lia.
      * replace (k + S j) with (S k + j) by lia. by apply Hin.
    + intros t Ht. apply Hout. cbn [length] in Ht. lia.
  - apply bind_Ok in Hfile as (keypoints & Hkp & [= <-]). rewrite Hkp.
    cbn [mbind result_bind].
    pose proof (extract_keypoints_matrix info _ _ Hkp) as Hm.
    assert (Hfi : consecutive_indices n !! k = Some (Some (Z.of_nat k))).
    { unfold consecutive_indices. rewrite list_lookup_fmap, lookup_seq_lt by lia. done. }
    rewrite Hfi, set_frame_exact by (done || lia). cbn [mbind result_bind].
    set (arr' := Np.mk_ndarray _ _).
    assert (Hl' : length (Np.data arr') = n * (all_markers info * 3)).
    { unfold arr'. cbn [Np.data]. destruct Hm as [_ Hm].
      rewrite splice_length; [done|done|]. rewrite Hl. nia. }
    destruct (IH (S k) arr' Hs Hl' ltac:(lia)) as (a & Ha & Hsa & Hla & Hin & Hout).
    assert (Hfs : ∀ b, Np.shape b = [n; all_markers info; 3] →
                       Np.frame_size b = all_markers info * 3).
    { intros b Hb. by apply frame_size_3d in Hb. }
    assert (Hsame : Np.frame arr' k = Np.data keypoints).
    { unfold Np.frame. rewrite (Hfs arr' Hs). unfold arr'. cbn [Np.data].
      destruct Hm as [_ Hm]. apply splice_slice_same; [done|]. rewrite Hl. nia. }
    assert (Hother : ∀ t, t ≠ k → Np.frame arr' t = Np.frame arr t).
    { intros t Ht. unfold Np.frame. rewrite (Hfs arr' Hs), (Hfs arr Hs).
      unfold arr'. cbn [Np.data]. destruct Hm as [_ Hm].
      apply splice_slice_other; [done| |done]. rewrite Hl. nia. }
    exists a. split; [done|]. split; [done|]. split; [done|]. split.
    + intros [|j] r' Hj.
      * injection Hj as <-. rewrite Nat.add_0_r, <- Hsame. apply Hout. lia.
      * replace (k + S j) with (S k + j) by lia. rewrite (Hin j r' Hj).
        destruct r'; [done|]. apply Hother. lia.
    + intros t Ht. cbn [length] in Ht. rewrite Hout by lia. apply Hother. lia.
Qed.

End in_order.

Lemma all_some_fmap (vs : list Z) : all_some (Some <$> vs) = Some vs.
Proof. induction vs as [|v vs IH]; [done|]. cbn. by rewrite IH. Qed.

Lemma all_some_None (l : list (option Z)) : None ∈ l → all_some l = None.
Proof.
  induction l as [|[v|] l IH]; [by intros ?%elem_of_nil| |done].
  intros [[=]|Hin]%elem_of_cons. cbn. by rewrite IH.
Qed.

Lemma Sorted_seq_Z start n : Sorted Z.le (Z.of_nat <$> seq start n).
Proof.
  revert start. induction n as [|n IH]; intros start; [constructor|].
  cbn. constructor; [apply IH|]. destruct n; constructor. lia.
Qed.

Lemma merge_sort_consecutive (indices : list nat) n :
  indices ≡ₚ seq 0 n → merge_sort Z.le (Z.of_nat <$> indices) = Z.of_nat <$> seq 0 n.
Proof.
  intros Hperm. apply (Sorted_unique Z.le).
  - apply (Sorted_merge_sort Z.le).
  - apply Sorted_seq_Z.
  - rewrite merge_sort_Permutation. by rewrite Hperm.
Qed.

Lemma sort_frame_indices_consecutive (indices : list nat) n :
  indices ≡ₚ seq 0 n →
  sort_frame_indices ((fun i => Some (Z.of_nat i)) <$> indices) = Ok (consecutive_indices n).
Proof.
  intros Hperm. unfold sort_frame_indices.
  rewrite (list_fmap_compose Z.of_nat Some), all_some_fmap.
  rewrite (merge_sort_consecutive _ n Hperm). unfold consecutive_indices.
  by rewrite <- list_fmap_compose.
Qed.

Section parse.
Variable info : OpenPoseModelInfo.

(** When every region is enabled and the file names carry the frame indices
    0 .. n-1 in some order, and every file can be read (it has a [people]
    list and the keypoints of its first person can be extracted),
    [parse_openpose_jsons] returns an array of shape (n, markers, 3) whose
    row k holds what the k-th file in the order of discovery contributes:
    its keypoints, or NaN when it reports nobody. *)
Theorem parse_openpose_jsons_rows_in_discovery_order (self : OpenPoseRecorder.t)
    (files : list json_file) (indices : list nat) (rows : list (option Np.ndarray)) :
  num_markers info self = all_markers info →
  (fun file => extract_frame_index (name file)) <$> files
  = (fun i => Some (Z.of_nat i)) <$> indices →
  indices ≡ₚ seq 0 (length files) →
  Forall2 (fun file r => file_row info file = Ok r) files rows →
  ∃ a, parse_openpose_jsons info self files = Ok a
    ∧ Np.shape a = [length files; all_markers info; 3]
    ∧ Np.wf a
    ∧ ∀ k r, rows !! k = Some r → Np.frame a k = row_data info r.
Proof.
  intros Hm Hnames Hperm Hrows. unfold parse_openpose_jsons.
  rewrite Hnames, (sort_frame_indices_consecutive _ _ Hperm). cbn [mbind result_bind].
  rewrite Hm.
  set (arr := Np.full _ nan).
  assert (Hl : length (Np.data arr) = length files * (all_markers info * 3)).
  { unfold arr, Np.full, Np.size_of. cbn [Np.data foldr]. rewrite length_replicate. lia. }
  destruct (process_files_in_order info (length files) files rows 0 arr eq_refl Hl
              ltac:(lia) Hrows) as (a & Ha & Hs & Hla & Hin & _).
  exists a. split; [done|]. split; [done|]. split.
  { unfold Np.wf, Np.size_of. rewrite Hs, Hla. cbn [foldr]. lia. }
  intros k r Hk. rewrite <- (Nat.add_0_l k), (Hin k r Hk). destruct r as [kp|]; [done|].
  cbn [row_data]. unfold Np.frame. rewrite (frame_size_3d arr _ _ _ eq_refl).
  unfold arr, Np.full, Np.size_of. cbn [Np.data foldr].
  rewrite drop_replicate, take_replicate. f_equal.
  apply lookup_lt_Some in Hk. apply Forall2_length in Hrows. nia.
Qed.

End parse.

Lemma set_frame_wf a i src a' r c :
  Np.wf a → is_matrix src r c → Np.set_frame a i src = Ok a' →
  Np.shape a' = Np.shape a ∧ Np.wf a'.
Proof.
  unfold Np.set_frame, Np.wf. intros Hwf Hsrc.
  destruct (Np.shape a) as [|n [|m [|c' [|]]]] eqn:Hs; try done.
  destruct (Np.norm_index n i) as [k|] eqn:Hk; [|done].
  intros H. apply bind_Ok in H as (new & Hnew & [= <-]). cbn [Np.shape Np.data].
  split; [done|].
  apply (broadcast2_length _ _ _ _ _ _ Hsrc) in Hnew.
  assert (k < n).
  { unfold Np.norm_index in Hk. repeat case_bool_decide; simplify_eq; lia. }
  unfold Np.size_of in *. cbn [foldr] in *.
  rewrite splice_length; [done|done|]. rewrite Hwf. nia.
Qed.

Lemma set_newaxis_wf a src a' r c :
  is_matrix src r c → Np.set_newaxis a src = Ok a' →
  Np.shape a' = Np.shape a ∧ Np.wf a'.
Proof.
  unfold Np.set_newaxis, Np.wf. intros Hsrc.
  destruct (Np.shape a) as [|n [|m [|c' [|]]]] eqn:Hs; try done.
  intros H. apply bind_Ok in H as (new & Hnew & [= <-]). cbn [Np.shape Np.data].
  split; [done|].
  apply (broadcast2_length _ _ _ _ _ _ Hsrc) in Hnew.
  unfold Np.size_of. cbn [foldr]. clear -Hnew.
  induction n as [|n IH]; [done|]. cbn [replicate concat]. rewrite length_app, IH. lia.
Qed.

Section parse_general.
Variable info : OpenPoseModelInfo.

Lemma process_files_wf frame_indices files : ∀ file_index data_array a,
  Np.wf data_array →
  process_files info frame_indices file_index files data_array = Ok a →
  Np.shape a = Np.shape data_array ∧ Np.wf a.
Proof.
  induction files as [|file files IH]; intros file_index data_array a Hwf H.
  { by injection H as <-. }
  cbn [process_files] in H. apply bind_Ok in H as (people & _ & H).
  apply bind_Ok in H as (arr' & Harr' & H).
  assert (Np.shape arr' = Np.shape data_array ∧ Np.wf arr') as [Hs' Hwf'].
  { destruct people as [|first_person people]; [by injection Harr' as <-|].
    apply bind_Ok in Harr' as (keypoints & Hkp & Harr').
    apply extract_keypoints_matrix in Hkp.
    destruct (frame_indices !! file_index) as [[i|]|]; [| |done].
    - by eapply set_frame_wf.
    - by eapply set_newaxis_wf. }
  apply IH in H as [Hs Hwfa]; [|done]. split; [congruence|done].
Qed.

(** Whenever [parse_openpose_jsons] returns, the array has the shape
    (number of files, markers of the enabled regions, 3) and as many
    elements. *)
Theorem parse_openpose_jsons_shape (self : OpenPoseRecorder.t) (files : list json_file) a :
  parse_openpose_jsons info self files = Ok a →
  Np.shape a = [length files; num_markers info self; 3] ∧ Np.wf a.
Proof.
  unfold parse_openpose_jsons. intros H. apply bind_Ok in H as (frame_indices & _ & H).
  apply process_files_wf in H; [done|].
  unfold Np.wf, Np.full. cbn [Np.data Np.shape]. apply length_replicate.
Qed.

Lemma process_files_nobody frame_indices files : ∀ file_index data_array,
  Forall (fun file => content file !! "people" = Some []) files →
  process_files info frame_indices file_index files data_array = Ok data_array.
Proof.
  induction files as [|file files IH]; intros file_index data_array Hall; [done|].
  apply Forall_cons in Hall as [Hfile Hall]. cbn [process_files]. unfold getitem.
  rewrite Hfile. cbn [mbind result_bind]. by apply IH.
Qed.

(** When every file name carries a frame index and every file reports
    nobody, the result is the all-NaN array, whatever regions are enabled
    and whatever the order of the files. *)
Theorem parse_openpose_jsons_nobody (self : OpenPoseRecorder.t) (files : list json_file) :
  Forall (fun file => is_Some (extract_frame_index (name file))) files →
  Forall (fun file => content file !! "people" = Some []) files →
  parse_openpose_jsons info self files
  = Ok (Np.full [length files; num_markers info self; 3] nan).
Proof.
  intros Hnames Hpeople. unfold parse_openpose_jsons.
  assert (∃ vs, (fun f => extract_frame_index (name f)) <$> files = Some <$> vs) as [vs Hvs].
  { clear Hpeople. induction Hnames as [|file files [v Hv] _ [vs IH]]; [by exists []|].
    exists (v :: vs). by rewrite !fmap_cons, Hv, IH. }
  unfold sort_frame_indices. rewrite Hvs, all_some_fmap. cbn [mbind result_bind].
  by apply process_files_nobody.
Qed.

(** With two or more files, one file whose name carries no frame index
    makes the sort of the indices fail with the TypeError of a comparison
    [lhs < rhs] in which one operand is [None]. *)
Theorem parse_openpose_jsons_unnamed_file (self : OpenPoseRecorder.t)
    (files : list json_file) (file : json_file) :
  2 ≤ length files → file ∈ files → extract_frame_index (name file) = None →
  ∃ lhs rhs : option Z,
    (lhs = None ∨ rhs = None)
    ∧ parse_openpose_jsons info self files = Raise (lt_not_supported lhs rhs).
Proof.
  intros Hlen Hin Hname. unfold parse_openpose_jsons, sort_frame_indices.
  rewrite all_some_None.
  - rewrite bool_decide_eq_false_2 by (rewrite length_fmap; lia).
    cbn [mbind result_bind]. unfold first_failed_comparison.
    destruct ((fun f => extract_frame_index (name f)) <$> files) as [|[v|] [|lhs l]].
    all: first [ by exists None, (Some 0%Z); split; [left|]
               | by exists lhs, None; split; [right|] ].
  - apply list_elem_of_fmap. by exists file.
Qed.

Lemma process_files_missing_people frame_indices files : ∀ file_index data_array,
  (∃ file, file ∈ files ∧ content file !! "people" = None) →
  raises (process_files info frame_indices file_index files data_array).
Proof.
  induction files as [|file files IH]; intros file_index data_array (f & Hin & Hf).
  { by apply elem_of_nil in Hin. }
  cbn [process_files]. unfold getitem.
  destruct (content file !! "people") as [people|] eqn:Hp; cbn [mbind result_bind]; [|done].
  destruct (match people with [] => _ | _ => _ end) as [arr'|e]; cbn [mbind result_bind];
    [|done].
  apply IH. exists f. split; [|done].
  apply elem_of_cons in Hin as [->|Hin]; [congruence|done].
Qed.

(** A file without the [people] key makes the parse fail. *)
Theorem parse_openpose_jsons_missing_people (self : OpenPoseRecorder.t)
    (files : list json_file) (file : json_file) :
  file ∈ files → content file !! "people" = None →
  raises (parse_openpose_jsons info self files).
Proof.
  intros Hin Hf. unfold parse_openpose_jsons.
  destruct (sort_frame_indices _) as [frame_indices|e]; cbn [mbind result_bind]; [|done].
  apply process_files_missing_people. by exists file.
Qed.

End parse_general.

Lemma splice_app (X mid Y new : list float) lo len :
  length X = lo → length mid = len →
  Np.splice lo len new (X ++ mid ++ Y) = X ++ new ++ Y.
Proof.
  intros HX Hmid. unfold Np.splice. rewrite take_app_length' by done. do 2 f_equal.
  rewrite (assoc_L app). apply drop_app_length'. rewrite length_app. lia.
Qed.

Lemma reshape_whole (values : list float) :
  length values mod 3 = 0 →
  Np.reshape_m1_3 values = Ok (Np.mk_ndarray [length values / 3; 3] values).
Proof. intros Hmod. unfold Np.reshape_m1_3. by rewrite bool_decide_eq_true_2. Qed.

Lemma set_rows_block R lo hi n (X mid Y values : list float) :
  length X = lo * 3 → length mid = n * 3 → lo + n ≤ R →
  hi `min` R = lo + n →
  length values mod 3 = 0 → n * 3 ≤ length values →
  Np.set_rows lo hi (Np.mk_ndarray [R; 3] (X ++ mid ++ Y))
    (Np.take_rows n (Np.mk_ndarray [length values / 3; 3] values))
  = Ok (Np.mk_ndarray [R; 3] (X ++ take (n * 3) values ++ Y)).
Proof.
  intros HX Hmid HR Hhi Hmod Hlen.
  unfold Np.set_rows, Np.take_rows, Np.nrows, Np.ncols, Np.dim0. cbn [Np.shape hd tl Np.data].
  assert (Hk : n `min` (length values / 3) = n).
  { pose proof (Nat.div_mod_eq (length values) 3). lia. }
  rewrite Hk, Hhi.
  replace (lo `min` R) with lo by lia.
  replace ((lo + n) `max` lo - lo) with n by lia.
  rewrite broadcast2_exact by done. cbn [mbind result_bind Np.data].
  by rewrite splice_app.
Qed.

Lemma key_block_length person_data key count :
  well_sized person_data key count → length (key_block person_data key count) = count * 3.
Proof.
  unfold well_sized, key_block. destruct (person_data !! key) as [values|].
  - intros [_ Hlen]. rewrite length_take. lia.
  - intros _. apply length_replicate.
Qed.

(** One optional region of [extract_keypoints]. *)
Lemma key_step (person_data : person) key count R lo hi (X Y : list float) :
  well_sized person_data key count →
  length X = lo * 3 → lo + count ≤ R → hi `min` R = lo + count →
  (if contains person_data key then
     values ← getitem person_data key;
     src ← Np.reshape_m1_3 values;
     Np.set_rows lo hi (Np.mk_ndarray [R; 3] (X ++ replicate (count * 3) nan ++ Y))
       (Np.take_rows count src)
   else Ok (Np.mk_ndarray [R; 3] (X ++ replicate (count * 3) nan ++ Y)))
  = Ok (Np.mk_ndarray [R; 3] (X ++ key_block person_data key count ++ Y)).
Proof.
  unfold well_sized, key_block, contains, getitem. intros Hsized HX HR Hhi.
  destruct (person_data !! key) as [values|].
  - destruct Hsized as [Hmod Hlen]. rewrite bool_decide_eq_true_2 by done.
    cbn [mbind result_bind]. rewrite reshape_whole by done. cbn [mbind result_bind].
    apply set_rows_block; try done. apply length_replicate.
  - by rewrite bool_decide_eq_false_2 by (by intros [? [=]]).
Qed.

(** The two hands of [extract_keypoints]. *)
Lemma hands_step (person_data : person) count R lo (X Y : list float) :
  (is_Some (person_data !! "hand_left_keypoints_2d") →
   is_Some (person_data !! "hand_right_keypoints_2d") →
   well_sized person_data "hand_left_keypoints_2d" count
   ∧ well_sized person_data "hand_right_keypoints_2d" count) →
  length X = lo * 3 → lo + 2 * count ≤ R →
  (if contains person_data "hand_left_keypoints_2d"
      && contains person_data "hand_right_keypoints_2d" then
     values ← getitem person_data "hand_left_keypoints_2d";
     src ← Np.reshape_m1_3 values;
     keypoints_array ←
       Np.set_rows lo (lo + count)
         (Np.mk_ndarray [R; 3]
            (X ++ replicate (count * 3) nan ++ replicate (count * 3) nan ++ Y))
         (Np.take_rows count src);
     values ← getitem person_data "hand_right_keypoints_2d";
     src ← Np.reshape_m1_3 values;
     Np.set_rows (lo + count) (lo + 2 * count) keypoints_array (Np.take_rows count src)
   else Ok (Np.mk_ndarray [R; 3]
              (X ++ replicate (count * 3) nan ++ replicate (count * 3) nan ++ Y)))
  = Ok (Np.mk_ndarray [R; 3] (X ++ hands_block person_data count ++ Y)).
Proof.
  unfold hands_block, contains. intros Hsized HX HR.
  destruct (decide (is_Some (person_data !! "hand_left_keypoints_2d")
                    ∧ is_Some (person_data !! "hand_right_keypoints_2d")))
    as [[Hl Hr]|Hno].
  - rewrite !bool_decide_eq_true_2 by done. cbn [andb].
    destruct (Hsized Hl Hr) as [Hsl Hsr].
    pose proof (key_block_length _ _ _ Hsl) as Hll.
    unfold well_sized, key_block, getitem in *.
    destruct Hl as [vl Hvl], Hr as [vr Hvr]. rewrite Hvl, Hvr in *.
    destruct Hsl as [Hml Hlenl], Hsr as [Hmr Hlenr]. cbn [mbind result_bind].
    rewrite (reshape_whole vl), (reshape_whole vr) by done. cbn [mbind result_bind].
    rewrite set_rows_block; try done; try lia; [|apply length_replicate].
    cbn [mbind result_bind].
    rewrite (assoc_L app X).
    rewrite set_rows_block; try done; try lia.
    + by rewrite <- !(assoc_L app).
    + rewrite length_app. lia.
    + apply length_replicate.
  - assert (bool_decide (is_Some (person_data !! "hand_left_keypoints_2d"))
            && bool_decide (is_Some (person_data !! "hand_right_keypoints_2d")) = false)
      as ->; [|by rewrite <- !(assoc_L app)].
    apply andb_false_iff.
    destruct (decide (is_Some (person_data !! "hand_left_keypoints_2d")));
      [right|left]; apply bool_decide_eq_false_2; tauto.
Qed.

Section keypoints.
Variable info : OpenPoseModelInfo.

(** The array of a person whose lists are whole triples with enough rows:
    body, left hand, right hand and face blocks in this order, each the
    first rows of its list, or NaN when the key is absent; the hands are
    filled only when both hand keys are present. *)
Theorem extract_keypoints_blocks (person_data : person) :
  well_sized person_data "pose_keypoints_2d" (num_tracked_points info) →
  (is_Some (person_data !! "hand_left_keypoints_2d") →
   is_Some (person_data !! "hand_right_keypoints_2d") →
   well_sized person_data "hand_left_keypoints_2d" (hand_markers info)
   ∧ well_sized person_data "hand_right_keypoints_2d" (hand_markers info)) →
  well_sized person_data "face_keypoints_2d" (face_markers info) →
  extract_keypoints info person_data
  = Ok (Np.mk_ndarray [all_markers info; 3]
          (key_block person_data "pose_keypoints_2d" (num_tracked_points info)
           ++ hands_block person_data (hand_markers info)
           ++ key_block person_data "face_keypoints_2d" (face_markers info))).
Proof.
  intros Hpose Hhands Hface. unfold extract_keypoints, all_markers.
  set (B := num_tracked_points info) in *. set (H := hand_markers info) in *.
  set (F := face_markers info) in *. set (R := B + 2 * H + F).
  assert (Hfull : Np.full [R; 3] nan
    = Np.mk_ndarray [R; 3]
        ([] ++ replicate (B * 3) nan
         ++ (replicate (H * 3) nan ++ replicate (H * 3) nan ++ replicate (F * 3) nan ++ []))).
  { unfold Np.full, Np.size_of. cbn [foldr app]. f_equal.
    rewrite app_nil_r, <- !replicate_add. f_equal. lia. }
  rewrite Hfull. clear Hfull.
  rewrite (key_step person_data "pose_keypoints_2d" B R 0 B) by (done || lia).
  cbn [mbind result_bind app].
  pose proof (key_block_length _ _ _ Hpose) as Hlb.
  rewrite (hands_step person_data H R B) by (done || lia).
  cbn [mbind result_bind].
  unfold Np.nrows, Np.dim0. cbn [Np.shape hd].
  rewrite (assoc_L app _ (hands_block person_data H)).
  rewrite (key_step person_data "face_keypoints_2d" F R (B + 2 * H) R); try done; try lia.
  - by rewrite app_nil_r, <- (assoc_L app).
  - rewrite length_app, Hlb. unfold hands_block.
    destruct (_ && _) eqn:Hboth.
    + apply andb_true_iff in Hboth as [Hl Hr]. unfold contains in Hl, Hr.
      apply bool_decide_eq_true_1 in Hl, Hr. destruct (Hhands Hl Hr) as [Hsl Hsr].
      rewrite length_app, !key_block_length by done. lia.
    + rewrite length_app, !length_replicate. lia.
Qed.

(** A pose list that is not made of whole triples, or that has fewer rows
    than body markers (other than one row, which numpy broadcasts), is
    fatal. *)
Theorem extract_keypoints_malformed_pose (person_data : person) (values : list float) :
  person_data !! "pose_keypoints_2d" = Some values →
  length values mod 3 ≠ 0
  ∨ (length values / 3 < num_tracked_points info ∧ length values / 3 ≠ 1) →
  raises (extract_keypoints info person_data).
Proof.
  intros Hvalues Hbad. unfold extract_keypoints, contains, getitem. apply raises_bind.
  rewrite Hvalues, bool_decide_eq_true_2 by done. cbn [mbind result_bind].
  unfold Np.reshape_m1_3. case_bool_decide as Hmod; [|done]. cbn [mbind result_bind].
  destruct Hbad as [?|[Hfew Hone]]; [done|].
  unfold Np.set_rows. apply raises_bind.
  unfold Np.nrows, Np.ncols, Np.dim0, Np.full. cbn [Np.shape hd tl].
  set (B := num_tracked_points info) in *.
  replace ((B `min` (B + 2 * hand_markers info + face_markers info)) `max`
             (0 `min` (B + 2 * hand_markers info + face_markers info))
           - 0 `min` (B + 2 * hand_markers info + face_markers info)) with B by lia.
  apply (broadcast2_mismatch _ (length values / 3)); [|lia|done].
  unfold Np.take_rows, Np.nrows, Np.ncols, Np.dim0. cbn [Np.shape hd tl].
  f_equal. lia.
Qed.

End keypoints.

(** Whatever keys the person has, the array [extract_keypoints] returns has
    the rows of all regions, enabled or not. *)
Theorem extract_keypoints_size (info : OpenPoseModelInfo) (person_data : person)
    (keypoints : Np.ndarray) :
  extract_keypoints info person_data = Ok keypoints →
  is_matrix keypoints (all_markers info) 3.
Proof. apply extract_keypoints_matrix. Qed.

End openpose_extras.

(** ** OpenPoseRecorder: file names *)

Section frame_index_facts.
Import OpenPoseRecorder.
Open Scope string_scope.

Lemma digit_char_spec d :
  (d < 10)%nat → is_digit (digit_char d) = true ∧ digit_value (digit_char d) = Z.of_nat d.
Proof.
  intros Hd. do 10 (destruct d as [|d]; [by vm_compute|]). lia.
Qed.

Lemma read_digits_digits ds : ∀ acc rest,
  Forall (fun d => d < 10)%nat ds →
  read_digits (length ds) (string_of_digits ds ++ rest) acc
  = Some (foldl (fun acc d => (10 * acc + Z.of_nat d)%Z) acc ds, rest).
Proof.
  induction ds as [|d ds IH]; intros acc rest Hds; [done|].
  apply Forall_cons in Hds as [Hd Hds]. destruct (digit_char_spec d Hd) as [Hdig Hval].
  cbn [length read_digits string_of_digits foldl].
  change (String (digit_char d) (string_of_digits ds) ++ rest)
    with (String (digit_char d) (string_of_digits ds ++ rest)).
  cbv beta iota. rewrite Hdig, Hval. by apply IH.
Qed.

Lemma match_here_file_name ds extension :
  length ds = 12%nat → Forall (fun d => d < 10)%nat ds →
  match_here (String "_"%char (string_of_digits ds ++ "_keypoints" ++ extension))
  = Some (digits_value ds).
Proof.
  intros Hlen Hds. unfold match_here. rewrite <- Hlen, read_digits_digits by done.
  cbn. repeat (destruct (ascii_dec _ _) as [_|Hne]; [|done]). by destruct extension.
Qed.

Lemma match_here_Some s v :
  match_here s = Some v →
  ∃ rest r, s = String "_"%char rest
            ∧ read_digits 12 rest 0%Z = Some (v, r)
            ∧ String.prefix "_keypoints" r = true.
Proof.
  unfold match_here. destruct s as [|c rest]; [done|].
  destruct c as [[] [] [] [] [] [] [] []]; try done.
  destruct (read_digits 12 rest 0%Z) as [[v' r]|] eqn:Hread; [|done].
  destruct (String.prefix "_keypoints" r) eqn:Hprefix; [|done].
  intros [= <-]. by exists rest, r.
Qed.

Lemma occurs_tail pattern c s : occurs pattern (String c s) = false → occurs pattern s = false.
Proof. cbn [occurs]. by intros [_ ?]%orb_false_iff. Qed.

Lemma read_digits_before_underscore pattern n : ∀ p rest acc v r,
  read_digits n (p ++ String "_"%char rest) acc = Some (v, r) →
  ∃ q, r = q ++ String "_"%char rest
       ∧ (occurs pattern p = false → occurs pattern q = false).
Proof.
  induction n as [|n IH]; intros p rest acc v r H.
  { injection H as <- <-. by exists p. }
  destruct p as [|c p].
  { change (read_digits (S n) (String "_"%char rest) acc = Some (v, r)) in H.
    cbn [read_digits] in H. by change (is_digit "_") with false in H. }
  cbn [read_digits] in H.
  change (String c p ++ String "_"%char rest) with (String c (p ++ String "_"%char rest)) in H.
  cbv beta iota in H. destruct (is_digit c); [|done].
  apply IH in H as (q & -> & Hq). exists q. split; [done|].
  intros Hocc. apply Hq. by eapply occurs_tail.
Qed.

Lemma prefix_across q c rest :
  String.prefix "_keypoints" (q ++ String "_"%char (String c rest)) = true →
  occurs "_keypoints" q = false → c = "k"%char.
Proof.
  intros H Hocc.
  do 10 (destruct q as [|? q];
    [change (String.prefix "_keypoints" (String "_"%char (String c rest)) = true) in H
     || (change ("" ++ String "_"%char (String c rest))
           with (String "_"%char (String c rest)) in H);
     cbn [String.prefix] in H;
     repeat (destruct (ascii_dec _ _) as [?|?]; [|discriminate]);
     (done || (by subst))
    |change (String ?a q ++ ?r) with (String a (q ++ r)) in H; cbn [String.prefix] in H;
     destruct (ascii_dec _ _) as [<-|]; [|discriminate]]).
  cbn [occurs String.prefix] in Hocc.
  repeat (destruct (ascii_dec _ _) as [?|?]; [|congruence]). by destruct q.
Qed.

Lemma digit_char_not_k d : (d < 10)%nat → digit_char d ≠ "k"%char.
Proof. intros Hd. do 10 (destruct d as [|d]; [by vm_compute|]). lia. Qed.

(** Round trip of the file names: the frame index written as twelve
    digits before [_keypoints] is the one read back, whatever the video
    name, as long as [_keypoints] does not occur in it. *)
Theorem extract_frame_index_file_name (video : string) (ds : list nat) (extension : string) :
  length ds = 12%nat → Forall (fun d => d < 10)%nat ds →
  occurs "_keypoints" video = false →
  extract_frame_index (keypoints_file_name video ds extension) = Some (digits_value ds).
Proof.
  intros Hlen Hds. unfold keypoints_file_name.
  induction video as [|c video IH]; intros Hocc.
  - change (extract_frame_index
              (String "_"%char (string_of_digits ds ++ "_keypoints" ++ extension))
            = Some (digits_value ds)).
    cbn [extract_frame_index]. by rewrite match_here_file_name.
  - change (String c video ++ ?r) with (String c (video ++ r)).
    cbn [extract_frame_index].
    destruct (match_here (String c _)) as [v|] eqn:Hmatch.
    + exfalso. apply match_here_Some in Hmatch as (rest & r & [= -> <-] & Hread & Hprefix).
      apply (read_digits_before_underscore "_keypoints") in Hread as (q & -> & Hq).
      destruct ds as [|d ds]; [done|]. apply Forall_cons in Hds as [Hd _].
      cbn [string_of_digits] in Hprefix.
      change (String (digit_char d) (string_of_digits ds) ++ ?r)
        with (String (digit_char d) (string_of_digits ds ++ r)) in Hprefix.
      apply prefix_across in Hprefix; [by apply digit_char_not_k in Hprefix|].
      apply Hq. by eapply occurs_tail.
    + apply IH. by eapply occurs_tail.
Qed.

End frame_index_facts.

(** ** MediapipeObservation: regions and serialisation *)

Section mediapipe_extras.
Import MediapipeObservation.

Lemma region_trajectories_nonempty o region n :
  ¬ region_is_empty region →
  region_trajectories o region n
  = Ok (Np.mk_ndarray [region_rows region n; 3] (region_block (image_size o) region n)).
Proof.
  intros Hne. destruct region as [landmarks|]; cbn [region_trajectories region_rows region_block].
  - apply landmarks_to_array_nonempty. intros ->. by apply Hne.
  - unfold Np.full, Np.size_of. cbn [foldr]. by rewrite Nat.mul_1_r.
Qed.

Lemma region_trajectories_empty o region n :
  region_is_empty region → raises (region_trajectories o region n).
Proof. by intros ->. Qed.

Lemma all_holistic_trajectories_nonempty (o : MediapipeObservation.t) :
  ¬ has_empty_region o →
  all_holistic_trajectories o
  = Ok (Np.mk_ndarray
          [region_rows (pose_landmarks o) num_body_points
           + region_rows (right_hand_landmarks o) num_single_hand_points
           + region_rows (left_hand_landmarks o) num_single_hand_points
           + region_rows (face_landmarks o) num_face_points; 3]
          (region_block (image_size o) (pose_landmarks o) num_body_points
           ++ region_block (image_size o) (right_hand_landmarks o) num_single_hand_points
           ++ region_block (image_size o) (left_hand_landmarks o) num_single_hand_points
           ++ region_block (image_size o) (face_landmarks o) num_face_points)).
Proof.
  unfold has_empty_region. intros Hne.
  unfold all_holistic_trajectories, pose_trajectories, right_hand_trajectories,
    left_hand_trajectories, face_trajectories.
  rewrite !region_trajectories_nonempty by tauto. cbn [mbind result_bind].
  apply concatenate4.
Qed.

(** The rows of [all_holistic_trajectories]: the blocks of pose, right
    hand, left hand and face in this order, each with as many rows as the
    region has landmarks (its schema count when it is missing). *)
Theorem all_holistic_trajectories_blocks (o : MediapipeObservation.t) :
  ¬ has_empty_region o →
  all_holistic_trajectories o
  = Ok (Np.mk_ndarray
          [region_rows (pose_landmarks o) num_body_points
           + region_rows (right_hand_landmarks o) num_single_hand_points
           + region_rows (left_hand_landmarks o) num_single_hand_points
           + region_rows (face_landmarks o) num_face_points; 3]
          (region_block (image_size o) (pose_landmarks o) num_body_points
           ++ region_block (image_size o) (right_hand_landmarks o) num_single_hand_points
           ++ region_block (image_size o) (left_hand_landmarks o) num_single_hand_points
           ++ region_block (image_size o) (face_landmarks o) num_face_points)).
Proof. apply all_holistic_trajectories_nonempty. Qed.

(** [all_holistic_trajectories] and [to_serializable_dict] raise exactly
    when a region is present with an empty landmark list (the product with
    the image size cannot be broadcast). *)
Theorem empty_region_raises (o : MediapipeObservation.t) :
  (raises (all_holistic_trajectories o) ↔ has_empty_region o)
  ∧ (raises (to_serializable_dict o) ↔ has_empty_region o).
Proof.
  assert (Hempty : has_empty_region o →
    raises (all_holistic_trajectories o) ∧ raises (to_serializable_dict o)).
  { unfold has_empty_region, all_holistic_trajectories, to_serializable_dict,
      pose_trajectories, right_hand_trajectories, left_hand_trajectories, face_trajectories.
    intros H.
    destruct (decide (region_is_empty (pose_landmarks o))) as [Hp|Hp].
    { by rewrite Hp. }
    rewrite (region_trajectories_nonempty _ _ _ Hp). cbn [mbind result_bind].
    destruct (decide (region_is_empty (right_hand_landmarks o))) as [Hr|Hr].
    { by rewrite Hr. }
    rewrite (region_trajectories_nonempty _ _ _ Hr). cbn [mbind result_bind].
    destruct (decide (region_is_empty (left_hand_landmarks o))) as [Hl|Hl].
    { by rewrite Hl. }
    rewrite (region_trajectories_nonempty _ _ _ Hl). cbn [mbind result_bind].
    destruct (decide (region_is_empty (face_landmarks o))) as [Hf|Hf].
    { by rewrite Hf. }
    tauto. }
  assert (Hfull : ¬ has_empty_region o →
    ¬ raises (all_holistic_trajectories o) ∧ ¬ raises (to_serializable_dict o)).
  { intros Hne. split.
    - rewrite all_holistic_trajectories_nonempty by done. apply not_raises_Ok.
    - unfold has_empty_region in Hne.
      assert (Hp : ¬ region_is_empty (pose_landmarks o)) by tauto.
      assert (Hr : ¬ region_is_empty (right_hand_landmarks o)) by tauto.
      assert (Hl : ¬ region_is_empty (left_hand_landmarks o)) by tauto.
      assert (Hf : ¬ region_is_empty (face_landmarks o)) by tauto.
      destruct (to_serializable_dict_ok o _ _ _ _
        (region_trajectories_nonempty o _ num_body_points Hp)
        (region_trajectories_nonempty o _ num_single_hand_points Hr)
        (region_trajectories_nonempty o _ num_single_hand_points Hl)
        (region_trajectories_nonempty o _ num_face_points Hf)) as (d & -> & _).
      apply not_raises_Ok. }
  assert (Decision (has_empty_region o)) as [He|He] by (unfold has_empty_region; apply _);
    [destruct (Hempty He)|destruct (Hfull He)]; tauto.
Qed.

Lemma chunks_lengths n k : ∀ d : list float,
  length d = n * k → Forall (fun c => length c = k) (Np.chunks n k d).
Proof.
  induction n as [|n IH]; intros d Hd; [constructor|].
  cbn [Np.chunks]. constructor.
  - rewrite length_take. lia.
  - apply IH. rewrite length_drop. lia.
Qed.

Lemma chunks_concat n k : ∀ d : list float,
  length d = n * k → concat (Np.chunks n k d) = d.
Proof.
  induction n as [|n IH]; intros d Hd.
  - by destruct d.
  - cbn [Np.chunks concat]. rewrite IH by (rewrite length_drop; lia). apply take_drop.
Qed.

Lemma pyval_floats_tolist sh : ∀ d,
  length d = Np.size_of sh → pyval_floats (tolist_data sh d) = d.
Proof.
  induction sh as [|n sh IH]; intros d Hd.
  - destruct d as [|x [|]]; done.
  - cbn [tolist_data pyval_floats]. change (Np.size_of (n :: sh)) with (n * Np.size_of sh) in Hd.
    rewrite <- list_fmap_compose.
    rewrite <- (chunks_concat n (Np.size_of sh) d Hd) at 2. f_equal.
    rewrite <- (list_fmap_id (Np.chunks _ _ _)) at 2.
    apply Forall_fmap_ext. eapply Forall_impl; [by apply chunks_lengths|].
    intros c Hc. by apply IH.
Qed.

Lemma region_block_length size region n :
  length (region_block size region n) = region_rows region n * 3.
Proof.
  destruct region as [landmarks|]; cbn [region_block region_rows].
  - by apply bind_length_const.
  - apply length_replicate.
Qed.

(** The dictionary has exactly the five keys, and the floats of each
    region's nested list are the region's trajectories, in order. *)
Theorem to_serializable_dict_round_trip (o : MediapipeObservation.t) :
  ¬ has_empty_region o →
  ∃ d pose right_hand left_hand face,
    to_serializable_dict o = Ok d
    ∧ dom d = {["pose_trajectories"; "right_hand_trajectories"; "left_hand_trajectories";
                "face_trajectories"; "image_size"]}
    ∧ d !! "pose_trajectories" = Some pose
    ∧ pyval_floats pose = region_block (image_size o) (pose_landmarks o) num_body_points
    ∧ d !! "right_hand_trajectories" = Some right_hand
    ∧ pyval_floats right_hand
      = region_block (image_size o) (right_hand_landmarks o) num_single_hand_points
    ∧ d !! "left_hand_trajectories" = Some left_hand
    ∧ pyval_floats left_hand
      = region_block (image_size o) (left_hand_landmarks o) num_single_hand_points
    ∧ d !! "face_trajectories" = Some face
    ∧ pyval_floats face = region_block (image_size o) (face_landmarks o) num_face_points.
Proof.
  unfold has_empty_region. intros Hne.
  assert (Hp : ¬ region_is_empty (pose_landmarks o)) by tauto.
  assert (Hr : ¬ region_is_empty (right_hand_landmarks o)) by tauto.
  assert (Hl : ¬ region_is_empty (left_hand_landmarks o)) by tauto.
  assert (Hf : ¬ region_is_empty (face_landmarks o)) by tauto.
  assert (Hflat : ∀ region n,
    pyval_floats (tolist (Np.mk_ndarray [region_rows region n; 3]
                            (region_block (image_size o) region n)))
    = region_block (image_size o) region n).
  { intros region n. unfold tolist. cbn [Np.shape Np.data]. apply pyval_floats_tolist.
    rewrite region_block_length. unfold Np.size_of. cbn [foldr]. lia. }
  unfold to_serializable_dict, pose_trajectories, right_hand_trajectories,
    left_hand_trajectories, face_trajectories.
  rewrite !region_trajectories_nonempty by done. cbn [mbind result_bind].
  rewrite json_dumps_allow_nan.
  eexists _, _, _, _, _. split; [reflexivity|]. split.
  { rewrite !dom_insert_L, dom_empty_L. set_solver. }
  repeat split; try (by simplify_map_eq); apply Hflat.
Qed.

End mediapipe_extras.

(** ** BaseRecorder *)

Section recorder_facts.
Import BrightestPointRecorder.

(** Recording an object appends one frame: the array compacted after a
    successful [record] is the array compacted before, followed by the
    (x, y, depth) of the recorded object. *)
Theorem record_then_process (self self1 : BrightestPointRecorder.t)
    (tracked_objects : gmap string TrackedObject) :
  record self tracked_objects = Ok self1 →
  ∃ obj a a1 s s1,
    tracked_objects !! "brightest_point" = Some obj
    ∧ process_tracked_objects self = Ok (s, a)
    ∧ process_tracked_objects self1 = Ok (s1, a1)
    ∧ Np.shape a1 = [S (Np.dim0 a); 1; 3]
    ∧ Np.data a1 = Np.data a ++ [pixel_x obj; pixel_y obj; depth_z obj].
Proof.
  unfold record, getitem. intros H.
  destruct (tracked_objects !! "brightest_point") as [obj|]; [|done].
  injection H as <-.
  eexists obj, _, _, _, _. split; [done|].
  split; [apply process_tracked_objects_run|].
  split; [apply process_tracked_objects_run|].
  cbn [recorded_objects Np.shape Np.data Np.dim0 hd]. split.
  - rewrite length_app. cbn [length]. do 2 f_equal. lia.
  - by rewrite bind_app.
Qed.

(** [save] writes the cached array when there is one and compacts first
    otherwise. *)
Lemma save_uses_cached_array (self : BrightestPointRecorder.t) (file_path : path)
    (files : gmap path Np.ndarray) :
  (∀ array, recorded_objects_array self = Some array →
     recorder_save self file_path files
     = Ok (self, <[npy_path file_path := array]> files))
  ∧ (recorded_objects_array self = None →
     recorder_save self file_path files
     = Ok (mk (recorded_objects self) (Some (recorded_array (recorded_objects self))),
           <[npy_path file_path := recorded_array (recorded_objects self)]> files)).
Proof.
  unfold recorder_save. split.
  - by intros array ->.
  - intros ->. by rewrite process_tracked_objects_run.
Qed.

(** Recording after a compaction does not refresh what [save] writes. *)
Theorem save_after_record_is_stale (self s1 s2 : BrightestPointRecorder.t) (a : Np.ndarray)
    (tracked_objects : gmap string TrackedObject) (file_path : path)
    (files : gmap path Np.ndarray) :
  process_tracked_objects self = Ok (s1, a) →
  record s1 tracked_objects = Ok s2 →
  recorder_save s2 file_path files = Ok (s2, <[npy_path file_path := a]> files)
  ∧ Np.dim0 a = length (recorded_objects self)
  ∧ length (recorded_objects s2) = S (length (recorded_objects self)).
Proof.
  rewrite process_tracked_objects_run. intros [= <- <-].
  unfold record, getitem. destruct (tracked_objects !! "brightest_point") as [obj|]; [|done].
  intros [= <-]. cbn [recorded_objects recorded_objects_array].
  split; [done|]. split; [done|]. rewrite length_app. cbn. lia.
Qed.

End recorder_facts.

(** ** The batch orchestrator: trackers, failures and the output file *)

Lemma file_name_dictionary_Some tracker_name file_name :
  file_name_dictionary !! tracker_name = Some file_name →
  (tracker_name = "MediapipeHolisticTracker" ∨ tracker_name = "YOLOMediapipeComboTracker"
   ∨ tracker_name = "YOLOPoseTracker" ∨ tracker_name = "BrightestPointTracker")
  ∧ ends_with ".npy" file_name = true.
Proof.
  unfold file_name_dictionary. intros H.
  repeat (apply lookup_insert_Some in H as [[Hk Hv]|[_ H]];
          [subst tracker_name file_name; split; [tauto|done]|]).
  done.
Qed.

Lemma get_tracker_dictionary_iff (tracker_name : string) (params : tracking_params) :
  is_Some (file_name_dictionary !! tracker_name) ↔ ¬ raises (get_tracker tracker_name params).
Proof.
  split.
  - intros [file_name Hfn]. apply file_name_dictionary_Some in Hfn as [Hname _].
    destruct Hname as [-> | [-> | [-> | ->]]]; apply not_raises_Ok.
  - intros Hok. destruct (get_tracker tracker_name params) as [t|e] eqn:Ht; [|by destruct Hok].
    by eapply get_tracker_known.
Qed.

(** [file_name_dictionary] has an entry for exactly the tracker names
    [get_tracker] accepts. *)
Theorem get_tracker_accepts_dictionary_names (tracker_name : string)
    (params : tracking_params) :
  is_Some (file_name_dictionary !! tracker_name) ↔ ¬ raises (get_tracker tracker_name params).
Proof. apply get_tracker_dictionary_iff. Qed.

Section batch_extras.
Variable stem : string → string.
Variable process_video : tracker → path → path → result Np.ndarray.

(** A tracker name [get_tracker] would reject never reaches it:
    [process_folder_of_videos] raises KeyError from the dictionary lookup,
    whatever the directory holds. *)
Theorem unknown_tracker_is_a_key_error env tracker_name params synchronized_video_path
    output_path annotated_video_path num_processes :
  raises (get_tracker tracker_name params) →
  process_folder_of_videos stem process_video env tracker_name params
    synchronized_video_path output_path annotated_video_path num_processes
  = Raise (KeyError tracker_name).
Proof.
  intros Hbad. unfold process_folder_of_videos, getitem.
  destruct (file_name_dictionary !! tracker_name) as [file_name|] eqn:Hfn; [|done].
  exfalso. revert Hbad. apply get_tracker_dictionary_iff. by eexists.
Qed.

(** One video whose processing raises makes the whole batch raise, in the
    sequential loop and in the pool: no camera is dropped. *)
Theorem failing_video_aborts_the_batch env tracker_name params synchronized_video_path
    output_path annotated_video_path num_processes (video : path) :
  schedule env ≡ₚ seq 0 (length (videos env)) →
  video ∈ videos env →
  raises (process_single_video stem process_video
            (mk_task tracker_name params video
               (resolve_annotated_video_path synchronized_video_path annotated_video_path))) →
  raises (process_folder_of_videos stem process_video env tracker_name params
            synchronized_video_path output_path annotated_video_path num_processes).
Proof.
  intros Hperm Hin Hfail. apply raises_not_Ok. intros r Hr.
  apply process_folder_of_videos_Ok in Hr as (fn & arrays & c & _ & Hres & _); [|done].
  apply list_elem_of_lookup in Hin as [i Hi].
  eapply (results_all_Ok _ _ _ Hres i); [|exact Hfail].
  unfold make_tasks. by rewrite list_lookup_fmap, Hi.
Qed.

(** Without an [output_path] the array that is saved is the one returned,
    and it is written to output_data/raw_data/<file name of the tracker>
    beside the video directory, the name being used as it is. *)
Theorem default_output_file env tracker_name params synchronized_video_path
    annotated_video_path num_processes combined saved_path saved :
  process_folder_of_videos stem process_video env tracker_name params
    synchronized_video_path None annotated_video_path num_processes
  = Ok (combined, (saved_path, saved)) →
  saved = combined
  ∧ ∃ file_name,
      file_name_dictionary !! tracker_name = Some file_name
      ∧ saved_path
        = parent synchronized_video_path ++ ["output_data"; "raw_data"; file_name].
Proof.
  unfold process_folder_of_videos, getitem. intros H.
  destruct (file_name_dictionary !! tracker_name) as [file_name|] eqn:Hfn; [|done].
  cbn [mbind result_bind] in H.
  apply bind_Ok in H as (array_list & _ & H). apply bind_Ok in H as (c & _ & [= <- <- <-]).
  split; [done|]. exists file_name. split; [done|].
  apply file_name_dictionary_Some in Hfn as [_ Hnpy].
  unfold npy_path, resolve_output_path. rewrite last_app. cbn [last]. by rewrite Hnpy.
Qed.

End batch_extras.

(** ** CharucoDetectorConfig *)

Section charuco_facts.
Import CharucoDetectorConfig.

Lemma py_range_length n : length (py_range n) = Z.to_nat n.
Proof. unfold py_range. by rewrite length_fmap, length_seq. Qed.

Lemma py_range_lookup n k : k < Z.to_nat n → py_range n !! k = Some (Z.of_nat k).
Proof. intros Hk. unfold py_range. by rewrite list_lookup_fmap, lookup_seq_lt. Qed.

Lemma bind_lookup_const {A B} (g : A → list B) m (l : list A) i j t :
  (∀ t, length (g t) = m) → l !! i = Some t → j < m →
  (l ≫= g) !! (i * m + j) = g t !! j.
Proof.
  intros Hg Hi Hj. rewrite <- (bind_slice g m l i t Hg Hi).
  by rewrite lookup_take_lt, lookup_drop.
Qed.

(** For a board of at least 1 x 1 squares there is one array of corner
    coordinates, with one row per corner id: (squares_x - 1) *
    (squares_y - 1) of them. *)
Theorem charuco_corner_count (self : CharucoDetectorConfig.t) :
  (1 ≤ squares_x self)%Z → (1 ≤ squares_y self)%Z →
  ∃ corners,
    charuco_corners_in_object_coordinates self = [corners]
    ∧ length corners = length (charuco_corner_ids self)
    ∧ Z.of_nat (length corners) = ((squares_x self - 1) * (squares_y self - 1))%Z.
Proof.
  intros Hx Hy. eexists. split; [reflexivity|].
  unfold charuco_corner_ids. rewrite py_range_length.
  set (ny := Z.to_nat (squares_y self - 1)).
  rewrite (bind_length_const _ ny).
  2:{ intros x. rewrite (bind_length_const _ 1) by done. rewrite py_range_length.
      unfold ny. lia. }
  rewrite py_range_length. unfold ny. split.
  - by rewrite Z2Nat.inj_mul by lia.
  - rewrite Nat2Z.inj_mul, !Z2Nat.id by lia. done.
Qed.

(** The corner with id k has the object coordinates
    (k div (squares_y - 1), k mod (squares_y - 1), 0). *)
Theorem charuco_corner_of_id (self : CharucoDetectorConfig.t) (corners : list (Z * Z * Z))
    (k : nat) :
  charuco_corners_in_object_coordinates self = [corners] →
  k < Z.to_nat (squares_x self - 1) * Z.to_nat (squares_y self - 1) →
  charuco_corner_ids self !! k = Some (Z.of_nat k)
  ∧ corners !! k
    = Some (Z.of_nat (k / Z.to_nat (squares_y self - 1)),
            Z.of_nat (k mod Z.to_nat (squares_y self - 1)), 0%Z).
Proof.
  intros [= <-] Hk.
  set (nx := Z.to_nat (squares_x self - 1)) in *.
  set (ny := Z.to_nat (squares_y self - 1)) in *.
  assert (0 < ny) by nia.
  split.
  - apply py_range_lookup. rewrite Z2Nat.inj_mul by lia. done.
  - rewrite (Nat.div_mod_eq k ny) at 1. rewrite (Nat.mul_comm ny).
    assert (Hq : k / ny < nx) by (apply Nat.Div0.div_lt_upper_bound; lia).
    assert (Hr : k mod ny < ny) by (apply Nat.mod_upper_bound; lia).
    rewrite (bind_lookup_const _ ny _ _ _ (Z.of_nat (k / ny))); [| |by apply py_range_lookup|done].
    + replace (k mod ny) with (k mod ny * 1 + 0) at 1 by lia.
      rewrite (bind_lookup_const _ 1 _ _ _ (Z.of_nat (k mod ny)));
        [done|done|by apply py_range_lookup|lia].
    + intros x. rewrite (bind_length_const _ 1) by done. rewrite py_range_length.
      unfold ny. lia.
Qed.

End charuco_facts.

(** ** The properties at example inputs *)

Lemma parse_openpose_jsons_rows_in_discovery_order_witness :
  ∃ a, OpenPoseRecorder.parse_openpose_jsons body25_info (OpenPoseRecorder.mk true true)
         [frame_1_with_person; frame_0_without_people] = Ok a
    ∧ Np.shape a = [2; all_markers body25_info; 3]
    ∧ Np.wf a
    ∧ ∀ k r, [Some body_only_keypoints; None] !! k = Some r →
             Np.frame a k = row_data body25_info r.
Proof.
  apply (parse_openpose_jsons_rows_in_discovery_order body25_info
           (OpenPoseRecorder.mk true true)
           [frame_1_with_person; frame_0_without_people] [1; 0]
           [Some body_only_keypoints; None]).
  - reflexivity.
  - reflexivity.
  - apply perm_swap.
  - repeat constructor; vm_compute; reflexivity.
Defined.

Lemma parse_openpose_jsons_shape_witness :
  Np.shape (Np.full [1; 25; 3] nan)
  = [length [frame_0_without_people];
     OpenPoseRecorder.num_markers body25_info (OpenPoseRecorder.mk false false); 3]
  ∧ Np.wf (Np.full [1; 25; 3] nan).
Proof.
  apply (parse_openpose_jsons_shape body25_info (OpenPoseRecorder.mk false false)
           [frame_0_without_people]).
  reflexivity.
Defined.

Lemma parse_openpose_jsons_nobody_witness :
  OpenPoseRecorder.parse_openpose_jsons body25_info (OpenPoseRecorder.mk false true)
    [frame_0_without_people]
  = Ok (Np.full [1; OpenPoseRecorder.num_markers body25_info
                      (OpenPoseRecorder.mk false true); 3] nan).
Proof.
  apply (parse_openpose_jsons_nobody body25_info (OpenPoseRecorder.mk false true)
           [frame_0_without_people]).
  - repeat constructor. by eexists.
  - repeat constructor.
Defined.

Lemma parse_openpose_jsons_unnamed_file_witness :
  ∃ lhs rhs : option Z,
    (lhs = None ∨ rhs = None)
    ∧ OpenPoseRecorder.parse_openpose_jsons body25_info (OpenPoseRecorder.mk true true)
        [unnamed_file; frame_0_without_people]
      = Raise (OpenPoseRecorder.lt_not_supported lhs rhs).
Proof.
  apply (parse_openpose_jsons_unnamed_file body25_info (OpenPoseRecorder.mk true true)
           [unnamed_file; frame_0_without_people] unnamed_file).
  - cbn. lia.
  - apply elem_of_cons. by left.
  - reflexivity.
Defined.

Lemma parse_openpose_jsons_missing_people_witness :
  raises (OpenPoseRecorder.parse_openpose_jsons body25_info (OpenPoseRecorder.mk true true)
            [file_without_people]).
Proof.
  apply (parse_openpose_jsons_missing_people body25_info (OpenPoseRecorder.mk true true)
           [file_without_people] file_without_people).
  - apply elem_of_cons. by left.
  - reflexivity.
Defined.

Lemma extract_keypoints_blocks_witness :
  OpenPoseRecorder.extract_keypoints body25_info body_only_person
  = Ok (Np.mk_ndarray [all_markers body25_info; 3]
          (key_block body_only_person "pose_keypoints_2d" 25
           ++ hands_block body_only_person 21
           ++ key_block body_only_person "face_keypoints_2d" 70)).
Proof.
  apply (extract_keypoints_blocks body25_info body_only_person).
  - split; [reflexivity|]. cbn. lia.
  - intros [? Hl]. discriminate Hl.
  - exact I.
Defined.

Lemma extract_keypoints_malformed_pose_witness :
  raises (OpenPoseRecorder.extract_keypoints body25_info malformed_person).
Proof.
  apply (extract_keypoints_malformed_pose body25_info malformed_person [1; 2; 3; 4]%float).
  - reflexivity.
  - left. cbn. lia.
Defined.

Lemma extract_keypoints_size_witness :
  is_matrix body_only_keypoints (all_markers body25_info) 3.
Proof.
  apply (extract_keypoints_size body25_info body_only_person body_only_keypoints).
  vm_compute. reflexivity.
Defined.

Lemma extract_frame_index_file_name_witness :
  OpenPoseRecorder.extract_frame_index (keypoints_file_name "cam_left" frame_12_digits ".json")
  = Some (digits_value frame_12_digits).
Proof.
  apply (extract_frame_index_file_name "cam_left" frame_12_digits ".json").
  - reflexivity.
  - repeat constructor.
  - reflexivity.
Defined.

Lemma observation_hand_only_regions : ¬ has_empty_region observation_hand_only.
Proof. intros [H|[H|[H|H]]]; discriminate H. Qed.

Lemma all_holistic_trajectories_blocks_witness :
  MediapipeObservation.all_holistic_trajectories observation_hand_only
  = Ok (Np.mk_ndarray
          [MediapipeObservation.num_body_points + 21
           + MediapipeObservation.num_single_hand_points
           + MediapipeObservation.num_face_points; 3]
          (replicate (MediapipeObservation.num_body_points * 3) nan
           ++ region_block (640, 480)%Z (Some (replicate 21 (Landmark.mk 0.5 0.25 0)))
                MediapipeObservation.num_single_hand_points
           ++ replicate (MediapipeObservation.num_single_hand_points * 3) nan
           ++ replicate (MediapipeObservation.num_face_points * 3) nan)).
Proof.
  apply (all_holistic_trajectories_blocks observation_hand_only).
  apply observation_hand_only_regions.
Defined.

Lemma to_serializable_dict_round_trip_witness :
  ∃ d pose right_hand left_hand face,
    MediapipeObservation.to_serializable_dict observation_hand_only = Ok d
    ∧ dom d = {["pose_trajectories"; "right_hand_trajectories"; "left_hand_trajectories";
                "face_trajectories"; "image_size"]}
    ∧ d !! "pose_trajectories" = Some pose
    ∧ pyval_floats pose = replicate (MediapipeObservation.num_body_points * 3) nan
    ∧ d !! "right_hand_trajectories" = Some right_hand
    ∧ pyval_floats right_hand
      = region_block (640, 480)%Z (Some (replicate 21 (Landmark.mk 0.5 0.25 0)))
          MediapipeObservation.num_single_hand_points
    ∧ d !! "left_hand_trajectories" = Some left_hand
    ∧ pyval_floats left_hand
      = replicate (MediapipeObservation.num_single_hand_points * 3) nan
    ∧ d !! "face_trajectories" = Some face
    ∧ pyval_floats face = replicate (MediapipeObservation.num_face_points * 3) nan.
Proof.
  apply (to_serializable_dict_round_trip observation_hand_only).
  apply observation_hand_only_regions.
Defined.

Lemma record_then_process_witness :
  ∃ obj a a1 s s1,
    one_brightest_point !! "brightest_point" = Some obj
    ∧ BrightestPointRecorder.process_tracked_objects recorder_with_one_object = Ok (s, a)
    ∧ BrightestPointRecorder.process_tracked_objects
        (BrightestPointRecorder.mk
           [mk_tracked_object 10 20 0; mk_tracked_object 100 50 0] None) = Ok (s1, a1)
    ∧ Np.shape a1 = [S (Np.dim0 a); 1; 3]
    ∧ Np.data a1 = Np.data a ++ [pixel_x obj; pixel_y obj; depth_z obj].
Proof.
  apply (record_then_process recorder_with_one_object _ one_brightest_point).
  reflexivity.
Defined.

Lemma save_after_record_is_stale_witness :
  let a := Np.mk_ndarray [1; 1; 3] [10; 20; 0]%float in
  let s2 := BrightestPointRecorder.mk
              [mk_tracked_object 10 20 0; mk_tracked_object 100 50 0] (Some a) in
  recorder_save s2 ["session"; "points"] ∅ = Ok (s2, <[npy_path ["session"; "points"] := a]> ∅)
  ∧ Np.dim0 a = length (BrightestPointRecorder.recorded_objects recorder_with_one_object)
  ∧ length (BrightestPointRecorder.recorded_objects s2)
    = S (length (BrightestPointRecorder.recorded_objects recorder_with_one_object)).
Proof.
  apply (save_after_record_is_stale recorder_with_one_object
           (BrightestPointRecorder.mk [mk_tracked_object 10 20 0]
              (Some (Np.mk_ndarray [1; 1; 3] [10; 20; 0]%float)))
           _ _ one_brightest_point ["session"; "points"] ∅).
  - vm_compute. reflexivity.
  - reflexivity.
Defined.

Lemma unknown_tracker_is_a_key_error_witness :
  process_folder_of_videos (fun s => s) two_frame_video two_cameras "ColorTracker"
    default_params ["session"; "synchronized_videos"] None None None
  = Raise (KeyError "ColorTracker").
Proof.
  apply (unknown_tracker_is_a_key_error (fun s => s) two_frame_video two_cameras
           "ColorTracker" default_params).
  exact I.
Defined.

Lemma failing_video_aborts_the_batch_witness :
  raises (process_folder_of_videos (fun s => s) second_video_unreadable two_cameras
            "BrightestPointTracker" default_params ["session"; "synchronized_videos"]
            None None (Some 4%Z)).
Proof.
  apply (failing_video_aborts_the_batch (fun s => s) second_video_unreadable two_cameras
           "BrightestPointTracker" default_params ["session"; "synchronized_videos"]
           None None (Some 4%Z) ["videos"; "cam1.mp4"]).
  - apply perm_swap.
  - apply elem_of_cons. right. apply elem_of_cons. by left.
  - exact I.
Defined.

Lemma default_output_file_witness :
  let combined := Np.mk_ndarray [2; 2; 1; 3] (replicate 12 0%float) in
  combined = combined
  ∧ ∃ file_name,
      file_name_dictionary !! "BrightestPointTracker" = Some file_name
      ∧ ["session"; "output_data"; "raw_data";
         "brightestPoint2dData_numCams_numFrames_numTrackedPoints_pixelXY.npy"]
        = parent ["session"; "synchronized_videos"]
          ++ ["output_data"; "raw_data"; file_name].
Proof.
  apply (default_output_file (fun s => s) two_frame_video two_cameras
           "BrightestPointTracker" default_params ["session"; "synchronized_videos"]
           None None).
  vm_compute. reflexivity.
Defined.

Lemma charuco_corner_count_witness :
  ∃ corners,
    CharucoDetectorConfig.charuco_corners_in_object_coordinates CharucoDetectorConfig.default
    = [corners]
    ∧ length corners
      = length (CharucoDetectorConfig.charuco_corner_ids CharucoDetectorConfig.default)
    ∧ Z.of_nat (length corners) = ((5 - 1) * (3 - 1))%Z.
Proof.
  apply (charuco_corner_count CharucoDetectorConfig.default); cbn; lia.
Defined.

Lemma charuco_corner_of_id_witness :
  CharucoDetectorConfig.charuco_corner_ids CharucoDetectorConfig.default !! 6 = Some 6%Z
  ∧ [(0, 0, 0); (0, 1, 0); (1, 0, 0); (1, 1, 0); (2, 0, 0); (2, 1, 0); (3, 0, 0);
     (3, 1, 0)]%Z !! 6
    = Some (Z.of_nat (6 / Z.to_nat (3 - 1)), Z.of_nat (6 mod Z.to_nat (3 - 1)), 0%Z).
Proof.
  apply (charuco_corner_of_id CharucoDetectorConfig.default
           [(0, 0, 0); (0, 1, 0); (1, 0, 0); (1, 1, 0); (2, 0, 0); (2, 1, 0); (3, 0, 0);
            (3, 1, 0)]%Z 6).
  - reflexivity.
  - cbn. lia.
Defined.
